(** * ZetaSQL value casts: the cast table and [CastContext::CastValue]

    A shallow embedding of [zetasql/public/cast.cc]: the static table of
    castable kind pairs built by [InitializeZetaSQLCasts], the four
    coercion predicates over [CastFunctionType], and the value cast
    dispatcher [CastContext::CastValue] with its two subclasses. *)

From Stdlib Require Import ZArith List Bool.
From stdpp Require Import base decidable countable gmap strings pretty list.

Local Open Scope string_scope.
Local Open Scope Z_scope.

(** ** Type kinds *)

(** Modelled from the spec: the [TypeKind] enumeration of [type.proto],
    which is not among the sources.  A kind is the coarse category of a
    type: bool, the integer widths, floating point, the two decimal
    kinds, string, bytes, the temporal kinds, geography, JSON, enum,
    proto, array, struct, or extended.  The names are those [cast.cc]
    uses in its table and switch; [TYPE_EXTENDED] is the kind that
    [Type::IsExtendedType] tests for. *)
Inductive TypeKind : Set :=
| TYPE_INT32 | TYPE_INT64 | TYPE_UINT32 | TYPE_UINT64
| TYPE_BOOL | TYPE_FLOAT | TYPE_DOUBLE
| TYPE_STRING | TYPE_BYTES
| TYPE_DATE | TYPE_TIMESTAMP | TYPE_TIME | TYPE_DATETIME
| TYPE_GEOGRAPHY | TYPE_NUMERIC | TYPE_BIGNUMERIC | TYPE_JSON
| TYPE_ENUM | TYPE_PROTO | TYPE_ARRAY | TYPE_STRUCT
| TYPE_EXTENDED.

#[global] Instance TypeKind_eq_dec : EqDecision TypeKind.
Proof. solve_decision. Defined.

Definition all_type_kinds : list TypeKind :=
  [ TYPE_INT32; TYPE_INT64; TYPE_UINT32; TYPE_UINT64;
    TYPE_BOOL; TYPE_FLOAT; TYPE_DOUBLE;
    TYPE_STRING; TYPE_BYTES;
    TYPE_DATE; TYPE_TIMESTAMP; TYPE_TIME; TYPE_DATETIME;
    TYPE_GEOGRAPHY; TYPE_NUMERIC; TYPE_BIGNUMERIC; TYPE_JSON;
    TYPE_ENUM; TYPE_PROTO; TYPE_ARRAY; TYPE_STRUCT;
    TYPE_EXTENDED ].

Definition TypeKind_index (k : TypeKind) : nat :=
  match k with
  | TYPE_INT32 => 0 | TYPE_INT64 => 1 | TYPE_UINT32 => 2 | TYPE_UINT64 => 3
  | TYPE_BOOL => 4 | TYPE_FLOAT => 5 | TYPE_DOUBLE => 6
  | TYPE_STRING => 7 | TYPE_BYTES => 8
  | TYPE_DATE => 9 | TYPE_TIMESTAMP => 10 | TYPE_TIME => 11
  | TYPE_DATETIME => 12
  | TYPE_GEOGRAPHY => 13 | TYPE_NUMERIC => 14 | TYPE_BIGNUMERIC => 15
  | TYPE_JSON => 16
  | TYPE_ENUM => 17 | TYPE_PROTO => 18 | TYPE_ARRAY => 19 | TYPE_STRUCT => 20
  | TYPE_EXTENDED => 21
  end%nat.

Lemma TypeKind_index_lookup (k : TypeKind) :
  all_type_kinds !! TypeKind_index k = Some k.
Proof. by destruct k. Qed.

#[global] Instance TypeKind_countable : Countable TypeKind.
Proof.
  apply (inj_countable TypeKind_index (fun n => all_type_kinds !! n)).
  exact TypeKind_index_lookup.
Defined.

Lemma all_type_kinds_complete (k : TypeKind) : k ∈ all_type_kinds.
Proof. apply list_elem_of_lookup. eexists. apply TypeKind_index_lookup. Qed.

(** [Type::IsSimpleType(kind)]: every kind but the enum, proto, array,
    struct and extended kinds. *)
Definition IsSimpleKind (k : TypeKind) : bool :=
  match k with
  | TYPE_ENUM | TYPE_PROTO | TYPE_ARRAY | TYPE_STRUCT | TYPE_EXTENDED => false
  | _ => true
  end.

(** ** The cast table *)

Inductive CastFunctionType : Set :=
| IMPLICIT
| EXPLICIT
| EXPLICIT_OR_LITERAL
| EXPLICIT_OR_LITERAL_OR_PARAMETER.

#[global] Instance CastFunctionType_eq_dec : EqDecision CastFunctionType.
Proof. solve_decision. Defined.

Record CastFunctionProperty : Set := mkCastFunctionProperty {
  cast_type : CastFunctionType;
  coercion_cost : Z
}.

Abbreviation TypeKindPair := (TypeKind * TypeKind)%type.
Abbreviation CastHashMap := (gmap (TypeKind * TypeKind) CastFunctionProperty).

(** [zetasql_base::InsertIfNotPresent]: the first entry of a key stays. *)
Definition InsertIfNotPresent {K V} `{Countable K}
    (m : gmap K V) (k : K) (v : V) : gmap K V :=
  match m !! k with
  | Some _ => m
  | None => <[k := v]> m
  end.

Section CastTable.

(** [Type::GetTypeCoercionCost], declared in [type.h]; the cast code
    only stores its result. *)
Variable TypeCoercionCost : TypeKind -> TypeKind -> Z.

Definition AddToCastMap (from to : TypeKind) (type : CastFunctionType)
    (map : CastHashMap) : CastHashMap :=
  InsertIfNotPresent map (from, to)
    (mkCastFunctionProperty type (TypeCoercionCost to from)).

(** The rows of [InitializeZetaSQLCasts], in source order. *)
Definition cast_rows : list (TypeKind * TypeKind * CastFunctionType) :=
  [ (TYPE_BOOL, TYPE_BOOL, IMPLICIT);
    (TYPE_BOOL, TYPE_INT32, EXPLICIT);
    (TYPE_BOOL, TYPE_INT64, EXPLICIT);
    (TYPE_BOOL, TYPE_UINT32, EXPLICIT);
    (TYPE_BOOL, TYPE_UINT64, EXPLICIT);
    (TYPE_BOOL, TYPE_STRING, EXPLICIT);

    (TYPE_INT32, TYPE_BOOL, EXPLICIT);
    (TYPE_INT32, TYPE_INT32, IMPLICIT);
    (TYPE_INT32, TYPE_INT64, IMPLICIT);
    (TYPE_INT32, TYPE_UINT32, EXPLICIT_OR_LITERAL);
    (TYPE_INT32, TYPE_UINT64, EXPLICIT_OR_LITERAL);
    (TYPE_INT32, TYPE_FLOAT, EXPLICIT_OR_LITERAL);
    (TYPE_INT32, TYPE_DOUBLE, IMPLICIT);
    (TYPE_INT32, TYPE_STRING, EXPLICIT);
    (TYPE_INT32, TYPE_ENUM, EXPLICIT_OR_LITERAL_OR_PARAMETER);
    (TYPE_INT32, TYPE_NUMERIC, IMPLICIT);
    (TYPE_INT32, TYPE_BIGNUMERIC, IMPLICIT);

    (TYPE_INT64, TYPE_BOOL, EXPLICIT);
    (TYPE_INT64, TYPE_INT32, EXPLICIT_OR_LITERAL);
    (TYPE_INT64, TYPE_INT64, IMPLICIT);
    (TYPE_INT64, TYPE_UINT32, EXPLICIT_OR_LITERAL);
    (TYPE_INT64, TYPE_UINT64, EXPLICIT_OR_LITERAL);
    (TYPE_INT64, TYPE_FLOAT, EXPLICIT_OR_LITERAL);
    (TYPE_INT64, TYPE_DOUBLE, IMPLICIT);
    (TYPE_INT64, TYPE_STRING, EXPLICIT);
    (TYPE_INT64, TYPE_ENUM, EXPLICIT_OR_LITERAL_OR_PARAMETER);
    (TYPE_INT64, TYPE_NUMERIC, IMPLICIT);
    (TYPE_INT64, TYPE_BIGNUMERIC, IMPLICIT);

    (TYPE_UINT32, TYPE_BOOL, EXPLICIT);
    (TYPE_UINT32, TYPE_INT32, EXPLICIT_OR_LITERAL);
    (TYPE_UINT32, TYPE_INT64, IMPLICIT);
    (TYPE_UINT32, TYPE_UINT32, IMPLICIT);
    (TYPE_UINT32, TYPE_UINT64, IMPLICIT);
    (TYPE_UINT32, TYPE_FLOAT, EXPLICIT_OR_LITERAL);
    (TYPE_UINT32, TYPE_DOUBLE, IMPLICIT);
    (TYPE_UINT32, TYPE_STRING, EXPLICIT);
    (TYPE_UINT32, TYPE_ENUM, EXPLICIT_OR_LITERAL);
    (TYPE_UINT32, TYPE_NUMERIC, IMPLICIT);
    (TYPE_UINT32, TYPE_BIGNUMERIC, IMPLICIT);

    (TYPE_UINT64, TYPE_BOOL, EXPLICIT);
    (TYPE_UINT64, TYPE_INT32, EXPLICIT_OR_LITERAL);
    (TYPE_UINT64, TYPE_INT64, EXPLICIT_OR_LITERAL);
    (TYPE_UINT64, TYPE_UINT32, EXPLICIT_OR_LITERAL);
    (TYPE_UINT64, TYPE_UINT64, IMPLICIT);
    (TYPE_UINT64, TYPE_FLOAT, EXPLICIT_OR_LITERAL);
    (TYPE_UINT64, TYPE_DOUBLE, IMPLICIT);
    (TYPE_UINT64, TYPE_STRING, EXPLICIT);
    (TYPE_UINT64, TYPE_ENUM, EXPLICIT_OR_LITERAL);
    (TYPE_UINT64, TYPE_NUMERIC, IMPLICIT);
    (TYPE_UINT64, TYPE_BIGNUMERIC, IMPLICIT);

    (TYPE_NUMERIC, TYPE_INT32, EXPLICIT);
    (TYPE_NUMERIC, TYPE_INT64, EXPLICIT);
    (TYPE_NUMERIC, TYPE_UINT32, EXPLICIT);
    (TYPE_NUMERIC, TYPE_UINT64, EXPLICIT);
    (TYPE_NUMERIC, TYPE_FLOAT, EXPLICIT);
    (TYPE_NUMERIC, TYPE_DOUBLE, IMPLICIT);
    (TYPE_NUMERIC, TYPE_STRING, EXPLICIT);
    (TYPE_NUMERIC, TYPE_NUMERIC, IMPLICIT);
    (TYPE_NUMERIC, TYPE_BIGNUMERIC, IMPLICIT);

    (TYPE_BIGNUMERIC, TYPE_INT32, EXPLICIT);
    (TYPE_BIGNUMERIC, TYPE_INT64, EXPLICIT);
    (TYPE_BIGNUMERIC, TYPE_UINT32, EXPLICIT);
    (TYPE_BIGNUMERIC, TYPE_UINT64, EXPLICIT);
    (TYPE_BIGNUMERIC, TYPE_FLOAT, EXPLICIT);
    (TYPE_BIGNUMERIC, TYPE_DOUBLE, IMPLICIT);
    (TYPE_BIGNUMERIC, TYPE_STRING, EXPLICIT);
    (TYPE_BIGNUMERIC, TYPE_NUMERIC, EXPLICIT);
    (TYPE_BIGNUMERIC, TYPE_BIGNUMERIC, IMPLICIT);

    (TYPE_FLOAT, TYPE_INT32, EXPLICIT);
    (TYPE_FLOAT, TYPE_INT64, EXPLICIT);
    (TYPE_FLOAT, TYPE_UINT32, EXPLICIT);
    (TYPE_FLOAT, TYPE_UINT64, EXPLICIT);
    (TYPE_FLOAT, TYPE_FLOAT, IMPLICIT);
    (TYPE_FLOAT, TYPE_DOUBLE, IMPLICIT);
    (TYPE_FLOAT, TYPE_STRING, EXPLICIT);
    (TYPE_FLOAT, TYPE_NUMERIC, EXPLICIT);
    (TYPE_FLOAT, TYPE_BIGNUMERIC, EXPLICIT);

    (TYPE_DOUBLE, TYPE_INT32, EXPLICIT);
    (TYPE_DOUBLE, TYPE_INT64, EXPLICIT);
    (TYPE_DOUBLE, TYPE_UINT32, EXPLICIT);
    (TYPE_DOUBLE, TYPE_UINT64, EXPLICIT);
    (TYPE_DOUBLE, TYPE_FLOAT, EXPLICIT_OR_LITERAL);
    (TYPE_DOUBLE, TYPE_DOUBLE, IMPLICIT);
    (TYPE_DOUBLE, TYPE_STRING, EXPLICIT);
    (TYPE_DOUBLE, TYPE_NUMERIC, EXPLICIT_OR_LITERAL);
    (TYPE_DOUBLE, TYPE_BIGNUMERIC, EXPLICIT_OR_LITERAL);

    (TYPE_STRING, TYPE_INT32, EXPLICIT);
    (TYPE_STRING, TYPE_INT64, EXPLICIT);
    (TYPE_STRING, TYPE_UINT32, EXPLICIT);
    (TYPE_STRING, TYPE_UINT64, EXPLICIT);
    (TYPE_STRING, TYPE_FLOAT, EXPLICIT);
    (TYPE_STRING, TYPE_DOUBLE, EXPLICIT);
    (TYPE_STRING, TYPE_STRING, IMPLICIT);
    (TYPE_STRING, TYPE_BYTES, EXPLICIT);
    (TYPE_STRING, TYPE_DATE, EXPLICIT_OR_LITERAL_OR_PARAMETER);
    (TYPE_STRING, TYPE_TIMESTAMP, EXPLICIT_OR_LITERAL_OR_PARAMETER);
    (TYPE_STRING, TYPE_TIME, EXPLICIT_OR_LITERAL_OR_PARAMETER);
    (TYPE_STRING, TYPE_DATETIME, EXPLICIT_OR_LITERAL_OR_PARAMETER);
    (TYPE_STRING, TYPE_ENUM, EXPLICIT_OR_LITERAL_OR_PARAMETER);
    (TYPE_STRING, TYPE_PROTO, EXPLICIT_OR_LITERAL_OR_PARAMETER);
    (TYPE_STRING, TYPE_BOOL, EXPLICIT);
    (TYPE_STRING, TYPE_NUMERIC, EXPLICIT);
    (TYPE_STRING, TYPE_BIGNUMERIC, EXPLICIT);
    (TYPE_STRING, TYPE_JSON, EXPLICIT);

    (TYPE_BYTES, TYPE_BYTES, IMPLICIT);
    (TYPE_BYTES, TYPE_STRING, EXPLICIT);
    (TYPE_BYTES, TYPE_PROTO, EXPLICIT_OR_LITERAL_OR_PARAMETER);

    (TYPE_DATE, TYPE_DATE, IMPLICIT);
    (TYPE_DATE, TYPE_DATETIME, IMPLICIT);
    (TYPE_DATE, TYPE_TIMESTAMP, EXPLICIT);
    (TYPE_DATE, TYPE_STRING, EXPLICIT);

    (TYPE_TIMESTAMP, TYPE_DATE, EXPLICIT);
    (TYPE_TIMESTAMP, TYPE_DATETIME, EXPLICIT);
    (TYPE_TIMESTAMP, TYPE_TIME, EXPLICIT);
    (TYPE_TIMESTAMP, TYPE_TIMESTAMP, IMPLICIT);
    (TYPE_TIMESTAMP, TYPE_STRING, EXPLICIT);

    (TYPE_TIME, TYPE_TIME, IMPLICIT);
    (TYPE_TIME, TYPE_STRING, EXPLICIT);

    (TYPE_DATETIME, TYPE_DATE, EXPLICIT);
    (TYPE_DATETIME, TYPE_DATETIME, IMPLICIT);
    (TYPE_DATETIME, TYPE_STRING, EXPLICIT);
    (TYPE_DATETIME, TYPE_TIME, EXPLICIT);
    (TYPE_DATETIME, TYPE_TIMESTAMP, EXPLICIT);

    (TYPE_GEOGRAPHY, TYPE_GEOGRAPHY, IMPLICIT);

    (TYPE_JSON, TYPE_JSON, IMPLICIT);
    (TYPE_JSON, TYPE_STRING, EXPLICIT);

    (TYPE_ENUM, TYPE_STRING, EXPLICIT);

    (TYPE_ENUM, TYPE_INT32, EXPLICIT);
    (TYPE_ENUM, TYPE_INT64, EXPLICIT);
    (TYPE_ENUM, TYPE_UINT32, EXPLICIT);
    (TYPE_ENUM, TYPE_UINT64, EXPLICIT);

    (TYPE_PROTO, TYPE_STRING, EXPLICIT);
    (TYPE_PROTO, TYPE_BYTES, EXPLICIT);

    (TYPE_ENUM, TYPE_ENUM, IMPLICIT);
    (TYPE_PROTO, TYPE_PROTO, IMPLICIT);
    (TYPE_ARRAY, TYPE_ARRAY, IMPLICIT);
    (TYPE_STRUCT, TYPE_STRUCT, IMPLICIT) ].

(** [InitializeZetaSQLCasts]: the [ADD_TO_MAP] lines run top to bottom
    on an empty map. *)
Definition InitializeZetaSQLCasts : CastHashMap :=
  fold_left (fun map '(from, to, type) => AddToCastMap from to type map)
    cast_rows ∅.

(** [GetZetaSQLCasts]: the table is built once and never changed. *)
Definition GetZetaSQLCasts : CastHashMap := InitializeZetaSQLCasts.

(** [zetasql_base::ContainsKey(GetZetaSQLCasts(), TypeKindPair(from, to))]. *)
Definition ContainsCast (from to : TypeKind) : bool :=
  bool_decide (is_Some (GetZetaSQLCasts !! (from, to))).

End CastTable.

(** ** The coercion predicates *)

Definition SupportsImplicitCoercion (type : CastFunctionType) : bool :=
  bool_decide (type = IMPLICIT).

Definition SupportsLiteralCoercion (type : CastFunctionType) : bool :=
  bool_decide (type = IMPLICIT)
  || bool_decide (type = EXPLICIT_OR_LITERAL)
  || bool_decide (type = EXPLICIT_OR_LITERAL_OR_PARAMETER).

Definition SupportsParameterCoercion (type : CastFunctionType) : bool :=
  bool_decide (type = IMPLICIT)
  || bool_decide (type = EXPLICIT_OR_LITERAL_OR_PARAMETER).

Definition SupportsExplicitCast (type : CastFunctionType) : bool :=
  bool_decide (type = IMPLICIT)
  || bool_decide (type = EXPLICIT)
  || bool_decide (type = EXPLICIT_OR_LITERAL)
  || bool_decide (type = EXPLICIT_OR_LITERAL_OR_PARAMETER).

(** ** Types *)

(** Modelled from the spec: an enum definition, with its full name and
    its (name, number) values.  The numbers are [int32_t] in the source
    ([Value::enum_value]), so they can be negative. *)
Record EnumDescriptor : Set := mkEnumDescriptor {
  enum_full_name : string;
  enum_values : list (string * Z)
}.

(** What the cast code reads of a message descriptor: its name, the
    [map_entry] option and the tag numbers of [map_key] and [map_value]. *)
Record Descriptor : Set := mkDescriptor {
  proto_full_name : string;
  map_entry : bool;
  map_key_number : Z;
  map_value_number : Z
}.

(** Modelled from the spec: [Type] of [type.h], which is not among the
    sources.  A type is identified by its kind; an enum or proto type
    refers to its definition, an array type owns its element type, a
    struct type its named field types, and an extended type is opaque. *)
#[warnings="-register-all"]
Inductive Type_ : Set :=
| SimpleType (k : TypeKind)
| EnumType (d : EnumDescriptor)
| ProtoType (d : Descriptor)
| ArrayType (element_type : Type_)
| StructType (fields : list (string * Type_))
| ExtendedType (name : string).

Abbreviation StructField := (string * Type_)%type.

Definition kind (t : Type_) : TypeKind :=
  match t with
  | SimpleType k => k
  | EnumType _ => TYPE_ENUM
  | ProtoType _ => TYPE_PROTO
  | ArrayType _ => TYPE_ARRAY
  | StructType _ => TYPE_STRUCT
  | ExtendedType _ => TYPE_EXTENDED
  end.

Definition IsSimpleType (t : Type_) : bool := IsSimpleKind (kind t).
Definition IsExtendedType (t : Type_) : bool :=
  bool_decide (kind t = TYPE_EXTENDED).
Definition IsStruct (t : Type_) : bool := bool_decide (kind t = TYPE_STRUCT).
Definition IsProto (t : Type_) : bool := bool_decide (kind t = TYPE_PROTO).

#[global] Instance EnumDescriptor_eq_dec : EqDecision EnumDescriptor.
Proof. solve_decision. Defined.
#[global] Instance Descriptor_eq_dec : EqDecision Descriptor.
Proof. solve_decision. Defined.

(** Modelled from the spec: [Type::Equals] of [type.h], which is not among
    the sources.  Types are compared by structural equality: same kind,
    same definition, and recursively the same element type or the same
    field names and field types. *)
Fixpoint Equals (a b : Type_) {struct a} : bool :=
  match a, b with
  | SimpleType k, SimpleType k' => bool_decide (k = k')
  | EnumType d, EnumType d' => bool_decide (d = d')
  | ProtoType d, ProtoType d' => bool_decide (d = d')
  | ArrayType e, ArrayType e' => Equals e e'
  | StructType fs, StructType fs' =>
      (fix fields_equal (l : list StructField) (l' : list StructField)
           {struct l} : bool :=
         match l, l' with
         | [], [] => true
         | (n, t) :: r, (n', t') :: r' =>
             bool_decide (n = n') && Equals t t' && fields_equal r r'
         | _, _ => false
         end) fs fs'
  | ExtendedType n, ExtendedType n' => bool_decide (n = n')
  | _, _ => false
  end.

Section Type_induction.
Variable P : Type_ -> Prop.
Hypothesis Hsimple : forall k, P (SimpleType k).
Hypothesis Henum : forall d, P (EnumType d).
Hypothesis Hproto : forall d, P (ProtoType d).
Hypothesis Harray : forall e, P e -> P (ArrayType e).
Hypothesis Hstruct : forall fs, Forall (fun f => P (snd f)) fs -> P (StructType fs).
Hypothesis Hextended : forall n, P (ExtendedType n).

Fixpoint Type_nested_ind (t : Type_) : P t :=
  match t with
  | SimpleType k => Hsimple k
  | EnumType d => Henum d
  | ProtoType d => Hproto d
  | ArrayType e => Harray e (Type_nested_ind e)
  | StructType fs =>
      Hstruct fs
        ((fix go (l : list StructField) : Forall (fun f => P (snd f)) l :=
            match l with
            | [] => @List.Forall_nil _ (fun f => P (snd f))
            | f :: r =>
                @List.Forall_cons _ (fun f => P (snd f)) f r
                  (Type_nested_ind (snd f)) (go r)
            end) fs)
  | ExtendedType n => Hextended n
  end.
End Type_induction.

Lemma Equals_eq (a b : Type_) : Equals a b = true <-> a = b.
Proof.
  revert b. induction a as [k|d|d|e IH|fs IH|n] using Type_nested_ind;
    intros [k'|d'|d'|e'|fs'|n']; simpl;
    try (split; [discriminate | congruence]).
  - rewrite bool_decide_eq_true. split; congruence.
  - rewrite bool_decide_eq_true. split; congruence.
  - rewrite bool_decide_eq_true. split; congruence.
  - rewrite IH. split; congruence.
  - revert fs'. induction IH as [|[n t] r Ht Hr IHr]; intros [|[n' t'] r'];
      try (split; [discriminate | congruence]); [done|].
    rewrite !andb_true_iff, bool_decide_eq_true. simpl in Ht.
    rewrite Ht. specialize (IHr r'). split.
    + intros [[-> ->] Hrr]. apply IHr in Hrr. congruence.
    + intros [= -> -> ->]. split; [done|]. apply IHr. done.
  - rewrite bool_decide_eq_true. split; congruence.
Qed.

Lemma Equals_refl (a : Type_) : Equals a a = true.
Proof. by apply Equals_eq. Qed.

#[global] Instance Type_eq_dec : EqDecision Type_.
Proof.
  intros a b. destruct (Equals a b) eqn:E.
  - left. by apply Equals_eq.
  - right. intros H. apply Equals_eq in H. congruence.
Defined.

(** ** Statuses *)

(** Which builder made an error status.  [SqlError] is [MakeSqlError]
    (static: the cast can never work), [EvalError] is [MakeEvalError]
    (dynamic: this value fails), [InternalError] is a failed
    [ZETASQL_RET_CHECK]. *)
Inductive ErrorKind : Set :=
| SqlError
| EvalError
| FailedPreconditionError
| InvalidArgumentError
| UnimplementedError
| InternalError
| OtherError.

#[global] Instance ErrorKind_eq_dec : EqDecision ErrorKind.
Proof. solve_decision. Defined.

Record Status : Set := mkStatus {
  error_kind : ErrorKind;
  error_message : string
}.

#[global] Instance Status_eq_dec : EqDecision Status.
Proof. solve_decision. Defined.

(** [zetasql_base::StatusOr<A>].  [Aborted] is the process stopping on a
    failed [CHECK] (or on an access the C++ leaves undefined). *)
Inductive StatusOr (A : Type) : Type :=
| Ok (a : A)
| Failed (s : Status)
| Aborted.
Arguments Ok {A} a.
Arguments Failed {A} s.
Arguments Aborted {A}.

#[global] Instance StatusOr_ret : MRet StatusOr := fun A a => Ok a.
#[global] Instance StatusOr_bind : MBind StatusOr := fun A B f m =>
  match m with
  | Ok a => f a
  | Failed s => Failed s
  | Aborted => Aborted
  end.

(** A [CHECK]ed access: the value when there is one, a crash otherwise. *)
Definition checked {A} (o : option A) : StatusOr A :=
  match o with
  | Some a => Ok a
  | None => Aborted
  end.

Definition MakeSqlError {A} (msg : string) : StatusOr A :=
  Failed (mkStatus SqlError msg).
Definition MakeEvalError {A} (msg : string) : StatusOr A :=
  Failed (mkStatus EvalError msg).
Definition FailedPreconditionErrorBuilder {A} (msg : string) : StatusOr A :=
  Failed (mkStatus FailedPreconditionError msg).
Definition InvalidArgumentErrorBuilder {A} (msg : string) : StatusOr A :=
  Failed (mkStatus InvalidArgumentError msg).
Definition UnimplementedErrorBuilder {A} (msg : string) : StatusOr A :=
  Failed (mkStatus UnimplementedError msg).
Definition RetCheckFailure {A} (cond : string) : StatusOr A :=
  Failed (mkStatus InternalError cond).

(** ** Values *)

Inductive OrderPreservationKind : Set := kPreservesOrder | kIgnoresOrder.

(** Modelled from the spec: [Value] of [value.h], which is not among the
    sources.  A Value is invalid, the NULL of a type, or a payload of the
    kind of its type.  Integers are their mathematical value, floats their bits,
    decimals, dates and times their encoding as an integer, a timestamp
    the nanoseconds since the epoch; strings, bytes, serialized protos and
    JSON text are strings. *)
#[warnings="-register-all"]
Inductive Value : Set :=
| InvalidValue
| VNull (type : Type_)
| VInt32 (x : Z)
| VInt64 (x : Z)
| VUint32 (x : Z)
| VUint64 (x : Z)
| VBool (x : bool)
| VFloat (bits : Z)
| VDouble (bits : Z)
| VString (s : string)
| VBytes (s : string)
| VDate (date : Z)
| VTimestamp (nanos : Z)
| VTime (time : Z)
| VDatetime (datetime : Z)
| VGeography
| VNumeric (x : Z)
| VBigNumeric (x : Z)
| VJson (validated : bool) (json : string)
| VEnum (enum_type : EnumDescriptor) (number : Z)
| VProto (proto_type : Descriptor) (bytes : string)
| VArray (element_type : Type_) (order : OrderPreservationKind)
         (elements : list Value)
| VStruct (struct_fields : list StructField) (fields : list Value)
| VExtended (name : string) (payload : string).

(** [Value::is_valid] and [Value::type]: every Value but the invalid one
    has a type. *)
Definition Value_type (v : Value) : option Type_ :=
  match v with
  | InvalidValue => None
  | VNull t => Some t
  | VInt32 _ => Some (SimpleType TYPE_INT32)
  | VInt64 _ => Some (SimpleType TYPE_INT64)
  | VUint32 _ => Some (SimpleType TYPE_UINT32)
  | VUint64 _ => Some (SimpleType TYPE_UINT64)
  | VBool _ => Some (SimpleType TYPE_BOOL)
  | VFloat _ => Some (SimpleType TYPE_FLOAT)
  | VDouble _ => Some (SimpleType TYPE_DOUBLE)
  | VString _ => Some (SimpleType TYPE_STRING)
  | VBytes _ => Some (SimpleType TYPE_BYTES)
  | VDate _ => Some (SimpleType TYPE_DATE)
  | VTimestamp _ => Some (SimpleType TYPE_TIMESTAMP)
  | VTime _ => Some (SimpleType TYPE_TIME)
  | VDatetime _ => Some (SimpleType TYPE_DATETIME)
  | VGeography => Some (SimpleType TYPE_GEOGRAPHY)
  | VNumeric _ => Some (SimpleType TYPE_NUMERIC)
  | VBigNumeric _ => Some (SimpleType TYPE_BIGNUMERIC)
  | VJson _ _ => Some (SimpleType TYPE_JSON)
  | VEnum d _ => Some (EnumType d)
  | VProto d _ => Some (ProtoType d)
  | VArray e _ _ => Some (ArrayType e)
  | VStruct fs _ => Some (StructType fs)
  | VExtended n _ => Some (ExtendedType n)
  end.

Definition is_valid (v : Value) : bool :=
  match Value_type v with Some _ => true | None => false end.

Definition is_null (v : Value) : bool :=
  match v with VNull _ => true | _ => false end.

(** The C++ types of the numeric conversion templates, and what a value
    of each is here. *)
Inductive CType : Set :=
| int32_t | int64_t | uint32_t | uint64_t | bool_t | float_t | double_t
| NumericValue | BigNumericValue.

Definition ctype (T : CType) : Set :=
  match T with bool_t => bool | _ => Z end.

Definition CType_kind (T : CType) : TypeKind :=
  match T with
  | int32_t => TYPE_INT32 | int64_t => TYPE_INT64
  | uint32_t => TYPE_UINT32 | uint64_t => TYPE_UINT64
  | bool_t => TYPE_BOOL | float_t => TYPE_FLOAT | double_t => TYPE_DOUBLE
  | NumericValue => TYPE_NUMERIC | BigNumericValue => TYPE_BIGNUMERIC
  end.

(** [Value::Get<T>]: crashes when the Value is not a non-NULL [T]. *)
Definition Value_Get (T : CType) (v : Value) : option (ctype T) :=
  match T, v with
  | int32_t, VInt32 x => Some x
  | int64_t, VInt64 x => Some x
  | uint32_t, VUint32 x => Some x
  | uint64_t, VUint64 x => Some x
  | bool_t, VBool x => Some x
  | float_t, VFloat x => Some x
  | double_t, VDouble x => Some x
  | NumericValue, VNumeric x => Some x
  | BigNumericValue, VBigNumeric x => Some x
  | _, _ => None
  end.

(** [Value::Make<T>] and [Value::MakeNull<T>]. *)
Definition Value_Make (T : CType) : ctype T -> Value :=
  match T with
  | int32_t => VInt32 | int64_t => VInt64
  | uint32_t => VUint32 | uint64_t => VUint64
  | bool_t => VBool | float_t => VFloat | double_t => VDouble
  | NumericValue => VNumeric | BigNumericValue => VBigNumeric
  end.

Definition Value_MakeNull (T : CType) : Value :=
  VNull (SimpleType (CType_kind T)).

Definition Value_NullString : Value := VNull (SimpleType TYPE_STRING).

(** Payload accessors; each crashes on a Value of another kind. *)
Definition string_value (v : Value) : option string :=
  match v with VString s => Some s | _ => None end.
Definition bytes_value (v : Value) : option string :=
  match v with VBytes s => Some s | _ => None end.
Definition date_value (v : Value) : option Z :=
  match v with VDate d => Some d | _ => None end.
Definition time_value (v : Value) : option Z :=
  match v with VTime t => Some t | _ => None end.
Definition datetime_value (v : Value) : option Z :=
  match v with VDatetime t => Some t | _ => None end.
Definition uint64_value (v : Value) : option Z :=
  match v with VUint64 x => Some x | _ => None end.
Definition enum_value (v : Value) : option Z :=
  match v with VEnum _ n => Some n | _ => None end.
Definition ToCord (v : Value) : option string :=
  match v with VProto _ b => Some b | _ => None end.

(** [Value::ToTime] and [Value::ToUnixMicros] of a timestamp, and
    [Value::TimestampFromUnixMicros]. *)
Definition ToTime (v : Value) : option Z :=
  match v with VTimestamp n => Some n | _ => None end.
Definition ToUnixMicros (v : Value) : option Z :=
  match v with VTimestamp n => Some (n / 1000) | _ => None end.
Definition Value_TimestampFromUnixMicros (micros : Z) : Value :=
  VTimestamp (micros * 1000).

(** [Value::ToInt64], on the kinds the cast code calls it on. *)
Definition ToInt64 (v : Value) : option Z :=
  match v with
  | VInt32 x | VInt64 x | VUint32 x => Some x
  | VEnum _ n => Some n
  | _ => None
  end.

(** [static_cast<int64_t>] of a [uint64_t]: wrap-around modulo 2^64. *)
Definition static_cast_int64 (x : Z) : Z :=
  (x + 2 ^ 63) mod 2 ^ 64 - 2 ^ 63.

(** *** Enum values *)

Definition FindName (d : EnumDescriptor) (number : Z) : option string :=
  fst <$> List.find (fun p => Z.eqb (snd p) number) (enum_values d).

Definition FindNumber (d : EnumDescriptor) (name : string) : option Z :=
  snd <$> List.find (fun p => String.eqb (fst p) name) (enum_values d).

(** Whether a 64-bit number names a value of the enum definition: it is
    an [int32_t] and the definition declares it. *)
Definition IsValidEnumValue (d : EnumDescriptor) (number : Z) : bool :=
  (- 2 ^ 31 <=? number) && (number <? 2 ^ 31)
  && bool_decide (is_Some (FindName d number)).

(** Modelled from the spec: [Value::Enum(enum_type, number)] of [value.h],
    which is not among the sources.  The cast from a number is bounds- and
    definition-checked: a number the definition declares gives that enum
    value, any other number gives an invalid Value. *)
Definition Value_Enum (d : EnumDescriptor) (number : Z) : Value :=
  if IsValidEnumValue d number then VEnum d number else InvalidValue.

(** Modelled from the spec: [Value::Enum(enum_type, name)] of [value.h],
    for a name: the value the definition declares under that name, an
    invalid Value when there is none. *)
Definition Value_Enum_name (d : EnumDescriptor) (name : string) : Value :=
  match FindNumber d name with
  | Some number => VEnum d number
  | None => InvalidValue
  end.

Definition enum_name (v : Value) : option string :=
  match v with VEnum d n => FindName d n | _ => None end.

(** ** Options, catalog and conversions *)

Inductive LanguageFeature : Set :=
| FEATURE_TIMESTAMP_NANOS
| FEATURE_V_1_3_PROTO_MAPS
| FEATURE_JSON_NO_VALIDATION
| FEATURE_JSON_LEGACY_PARSE.

Inductive ProductMode : Set := PRODUCT_INTERNAL | PRODUCT_EXTERNAL.

Record LanguageOptions : Set := mkLanguageOptions {
  LanguageFeatureEnabled : LanguageFeature -> bool;
  product_mode : ProductMode
}.

Definition TimeZone : Set := string.

Inductive TimestampScale : Set :=
| kSeconds | kMilliseconds | kMicroseconds | kNanoseconds.

Definition GetTimestampScale (language_options : LanguageOptions)
    : TimestampScale :=
  if LanguageFeatureEnabled language_options FEATURE_TIMESTAMP_NANOS
  then kNanoseconds
  else kMicroseconds.

Record FunctionSignature : Set := mkFunctionSignature {
  result_type : Type_;
  argument_type : Type_
}.

Definition FunctionEvaluator : Type := list Value -> StatusOr Value.

(** A catalog [Function], as far as a conversion uses it. *)
Record Function : Type := mkFunction {
  GetFunctionEvaluatorFactory : FunctionSignature -> StatusOr FunctionEvaluator
}.

(** A [ConversionEvaluator] is invalid (default-constructed) or holds the
    two types and the function of a conversion. *)
Inductive ConversionEvaluator : Type :=
| InvalidEvaluator
| Evaluator (from_type to_type : Type_) (function : Function).

Definition ConversionEvaluator_is_valid (e : ConversionEvaluator) : bool :=
  match e with InvalidEvaluator => false | Evaluator _ _ _ => true end.

(** [ConversionEvaluator::Create].  Its three arguments are pointers
    that may be null, and it checks all three before it compares the
    types. *)
Definition ConversionEvaluator_Create (from_type to_type : option Type_)
    (function : option Function) : StatusOr ConversionEvaluator :=
  match from_type with
  | None => RetCheckFailure "from_type"
  | Some from_type =>
      match to_type with
      | None => RetCheckFailure "to_type"
      | Some to_type =>
          match function with
          | None => RetCheckFailure "function"
          | Some f =>
              if Equals from_type to_type
              then RetCheckFailure "!from_type->Equals(to_type)"
              else Ok (Evaluator from_type to_type f)
          end
      end
  end.

Definition ConversionEvaluator_GetFunctionSignature
    (from_type to_type : Type_) : FunctionSignature :=
  mkFunctionSignature to_type from_type.

Definition ConversionEvaluator_Eval (e : ConversionEvaluator)
    (from_value : Value) : StatusOr Value :=
  match e with
  | InvalidEvaluator =>
      FailedPreconditionErrorBuilder
        "Attempt to cast a value using invalid conversion"
  | Evaluator from_type to_type function =>
      value_type ← checked (Value_type from_value);
      if negb (Equals from_type value_type)
      then InvalidArgumentErrorBuilder
             "Type of casted value doesn't match the source type of conversion"
      else
        evaluator ← GetFunctionEvaluatorFactory function
                      (ConversionEvaluator_GetFunctionSignature
                         from_type to_type);
        evaluator [from_value]
  end.

Record Conversion : Type := mkConversion {
  evaluator : ConversionEvaluator;
  property : CastFunctionProperty
}.

Definition Conversion_is_valid (c : Conversion) : bool :=
  ConversionEvaluator_is_valid (evaluator c).

Definition Conversion_Create (e : ConversionEvaluator)
    (p : CastFunctionProperty) : StatusOr Conversion :=
  if ConversionEvaluator_is_valid e
  then Ok (mkConversion e p)
  else RetCheckFailure "evaluator.is_valid()".

Inductive ConversionSourceExpressionKind : Set :=
| kOther | kLiteral | kParameter.

Record FindConversionOptions : Set := mkFindConversionOptions {
  is_explicit : bool;
  source_kind : ConversionSourceExpressionKind;
  generic_function_needed : bool;
  options_product_mode : ProductMode
}.

(** [Conversion::IsMatch].  [property().is_implicit()] is declared in
    [cast.h]; the source calls such a conversion unconditionally implicit,
    which is the class [IMPLICIT]. *)
Definition Conversion_IsMatch (c : Conversion)
    (options : FindConversionOptions) : bool :=
  if negb (Conversion_is_valid c) then false
  else if is_explicit options then true
  else if SupportsImplicitCoercion (cast_type (property c)) then true
  else
    match source_kind options with
    | kLiteral =>
        bool_decide (cast_type (property c) = EXPLICIT_OR_LITERAL)
        || bool_decide
             (cast_type (property c) = EXPLICIT_OR_LITERAL_OR_PARAMETER)
    | kParameter =>
        bool_decide
          (cast_type (property c) = EXPLICIT_OR_LITERAL_OR_PARAMETER)
    | kOther => false
    end.

(** The catalog, as far as the cast code calls it.  [FindConversion]
    gives the conversion it stored on success. *)
Record Catalog : Type := mkCatalog {
  FindConversion :
    Type_ -> Type_ -> FindConversionOptions -> StatusOr Conversion
}.

(** ** The function library

    [cast.cc] converts payloads through the function library, the type
    and proto libraries and the coercer, none of which is part of it.
    They are taken as they are declared: each entry returns a result or
    an error status. *)
Record Library : Type := mkLibrary {
  (* type.h *)
  DebugString : Type_ -> string;
  Equivalent : Type_ -> Type_ -> bool;
  GetTypeCoercionCost : TypeKind -> TypeKind -> Z;
  GetFieldTypeByTagNumber : Descriptor -> Z -> StatusOr Type_;
  (* coercer.h: Coercer(type_factory, language_options, catalog)
       .CoercesTo(InputArgumentType(value), to_type, is_explicit, result) *)
  CoercesTo : LanguageOptions -> option Catalog -> Value -> Type_ -> bool -> bool;
  (* functions/convert.h, convert_string.h *)
  Convert : forall F T : CType, ctype F -> StatusOr (ctype T);
  NumericToString_fn : forall T : CType, ctype T -> StatusOr string;
  StringToNumeric_fn : forall T : CType, string -> StatusOr (ctype T);
  (* functions/date_time_util.h *)
  ConvertStringToDate : string -> StatusOr Z;
  ConvertStringToTimestamp_time :
    string -> TimeZone -> TimestampScale -> bool -> StatusOr Z;
  ConvertStringToTimestamp_int64 :
    string -> TimeZone -> TimestampScale -> StatusOr Z;
  ConvertTimestampToString :
    Z -> TimestampScale -> TimeZone -> StatusOr string;
  ConvertTimestampToStringWithTruncation :
    Z -> TimestampScale -> TimeZone -> StatusOr string;
  ConvertDateToTimestamp : Z -> TimestampScale -> TimeZone -> StatusOr Z;
  ExtractDateFromTimestamp : Z -> TimestampScale -> TimeZone -> StatusOr Z;
  ConvertDateToString : Z -> StatusOr string;
  ConvertStringToTime : string -> TimestampScale -> StatusOr Z;
  ConvertTimeToString : Z -> TimestampScale -> StatusOr string;
  ConvertTimestampToTime : Z -> TimeZone -> StatusOr Z;
  ConvertStringToDatetime : string -> TimestampScale -> StatusOr Z;
  ConvertDatetimeToString : Z -> TimestampScale -> StatusOr string;
  ConvertDatetimeToTimestamp : Z -> TimeZone -> StatusOr Z;
  ConvertTimestampToDatetime : Z -> TimeZone -> StatusOr Z;
  ExtractDateFromDatetime : Z -> StatusOr Z;
  ConstructDatetime : Z -> StatusOr Z;
  ExtractTimeFromDatetime : Z -> StatusOr Z;
  (* json_value.h *)
  ParseJSONString : string -> bool -> StatusOr string;
  JSONValue_ToString : string -> string;
  (* utf_util.h, strings.h *)
  IsWellFormedUTF8 : string -> bool;
  ToStringLiteral : string -> string;
  ToBytesLiteral : string -> string;
  PrettyTruncateUTF8 : string -> Z -> string;
  (* protobuf messages, convert_proto.h, proto_value_conversion.h *)
  Message : Type;
  NewMessage : Descriptor -> Message;
  StringToProto : string -> Message -> StatusOr Message;
  ProtoToString : Message -> StatusOr string;
  SerializeToString : Message -> bool * string;
  ParsePartialFromString : Descriptor -> string -> option Message;
  MergeValueToProtoField : Value -> Z -> bool -> Message -> StatusOr Message;
  (* internal_value.h *)
  ArrayChecked : Type_ -> OrderPreservationKind -> list Value -> StatusOr Value
}.

Definition MAX_LITERAL_DISPLAY_LENGTH : Z := 60.

(** ** The cast dispatcher *)

Definition AsEnum (t : Type_) : option EnumDescriptor :=
  match t with EnumType d => Some d | _ => None end.
Definition AsProto (t : Type_) : option Descriptor :=
  match t with ProtoType d => Some d | _ => None end.
Definition AsStruct (t : Type_) : option (list StructField) :=
  match t with StructType fs => Some fs | _ => None end.
Definition AsArray (t : Type_) : option Type_ :=
  match t with ArrayType e => Some e | _ => None end.

Definition order_kind (v : Value) : option OrderPreservationKind :=
  match v with VArray _ o _ => Some o | _ => None end.

(** Returns whether this cast is a map-entry cast. *)
Definition IsMapEntryCast (from to : Type_) : bool :=
  IsStruct from
  && match AsStruct from with
     | Some fields => bool_decide (length fields = 2%nat)
     | None => false
     end
  && IsProto to
  && match AsProto to with
     | Some descriptor => map_entry descriptor
     | None => false
     end.

(** The virtual interface of [CastContext]: the two properties and the
    two methods its subclasses override. *)
Record CastContext : Type := mkCastContext {
  default_timezone : TimeZone;
  language_options : LanguageOptions;
  CastWithExtendedType : Value -> Type_ -> StatusOr Value;
  ValidateCoercion : Value -> Type_ -> StatusOr unit
}.

Section Cast.

Variable lib : Library.

Definition NumericCast (F T : CType) (value : Value) : StatusOr Value :=
  in_ ← checked (Value_Get F value);
  out ← Convert lib F T in_;
  Ok (Value_Make T out).

Definition NumericValueCast (F T : CType) (in_ : ctype F) : StatusOr Value :=
  out ← Convert lib F T in_;
  Ok (Value_Make T out).

Definition NumericToString (T : CType) (v : Value) : StatusOr Value :=
  if is_null v then Ok Value_NullString
  else
    value ← checked (Value_Get T v);
    str ← NumericToString_fn lib T value;
    Ok (VString str).

Definition StringToNumeric (T : CType) (v : Value) : StatusOr Value :=
  if is_null v then Ok (Value_MakeNull T)
  else
    value ← checked (string_value v);
    out ← StringToNumeric_fn lib T value;
    Ok (Value_Make T out).

Definition UnsupportedCast {A} (from to : Type_) : StatusOr A :=
  MakeSqlError ("Unsupported cast from " +:+ DebugString lib from
                +:+ " to " +:+ DebugString lib to).

(** [CastContextWithValidation]: a validated cast, used by [CastValue]. *)
Definition CastContextWithValidation (default_timezone : TimeZone)
    (language_options : LanguageOptions) (catalog_ : option Catalog)
    : CastContext :=
  {| default_timezone := default_timezone;
     language_options := language_options;
     CastWithExtendedType := fun from_value to_type =>
       match catalog_ with
       | None =>
           FailedPreconditionErrorBuilder
             "Attempt to cast a Value of extened type without providing a Catalog"
       | Some catalog =>
           let options :=
             mkFindConversionOptions true kLiteral false
               (product_mode language_options) in
           from_type ← checked (Value_type from_value);
           conversion ← FindConversion catalog from_type to_type options;
           ConversionEvaluator_Eval (evaluator conversion) from_value
       end;
     ValidateCoercion := fun from_value to_type =>
       if negb (CoercesTo lib language_options catalog_ from_value to_type
                  true)
       then
         from_type ← checked (Value_type from_value);
         UnsupportedCast from_type to_type
       else Ok tt |}.

(** [CastContextWithoutValidation]: an unvalidated cast, used by
    [CastValueWithoutTypeValidation]. *)
Definition CastContextWithoutValidation (default_timezone : TimeZone)
    (language_options : LanguageOptions)
    (extended_type_conversion_ : option Function) : CastContext :=
  {| default_timezone := default_timezone;
     language_options := language_options;
     CastWithExtendedType := fun from_value to_type =>
       match extended_type_conversion_ with
       | None =>
           FailedPreconditionErrorBuilder
             "Attempt to cast a Value of extened type without providing an extended conversion function"
       | Some _ =>
           from_type ← checked (Value_type from_value);
           evaluator ← ConversionEvaluator_Create (Some from_type)
                         (Some to_type) extended_type_conversion_;
           ConversionEvaluator_Eval evaluator from_value
       end;
     ValidateCoercion := fun from_value to_type => Ok tt |}.

(** [DoMapEntryCast]: the STRUCT->PROTO cast of a two-field struct to a
    map-entry proto.  [CastField i t] is the public [CastValue] of
    [from_value.field(i)] to [t]. *)
Definition DoMapEntryCast (CastField : nat -> Type_ -> StatusOr Value)
    (from_type to_type : Type_) : StatusOr Value :=
  if negb (IsMapEntryCast from_type to_type)
  then RetCheckFailure "IsMapEntryCast(from_value.type(), to_type)"
  else
    to_proto_type ← checked (AsProto to_type);
    key_type ← GetFieldTypeByTagNumber lib to_proto_type
                 (map_key_number to_proto_type);
    value_type ← GetFieldTypeByTagNumber lib to_proto_type
                   (map_value_number to_proto_type);
    key ← CastField 0%nat key_type;
    value ← CastField 1%nat value_type;
    let message := NewMessage lib to_proto_type in
    let use_wire_format_annotations := true in
    message ← MergeValueToProtoField lib key (map_key_number to_proto_type)
                use_wire_format_annotations message;
    message ← MergeValueToProtoField lib value
                (map_value_number to_proto_type)
                use_wire_format_annotations message;
    let '(serialized, bytes_str) := SerializeToString lib message in
    if serialized then Ok (VProto to_proto_type bytes_str) else Aborted.

(** The default branch of the switch of [CastContext::CastValue]. *)
Definition UnimplementedCast (from to : Type_) : StatusOr Value :=
  UnimplementedErrorBuilder
    ("Unimplemented cast from " +:+ DebugString lib from
     +:+ " to " +:+ DebugString lib to).

(** The [switch (FCT(v.type()->kind(), to_type->kind()))] of
    [CastContext::CastValue], for a non-NULL [v] of type [v_type].
    [CastFields to_fields] is the loop of the struct case and
    [CastElements to_element_type] the loop of the array case;
    [default_case] is what the [default:] label returns. *)
Definition CastSwitch (default_case : Type_ -> Type_ -> StatusOr Value)
    (ctx : CastContext)
    (CastFields : list StructField -> StatusOr (list Value))
    (CastElements : Type_ -> StatusOr (list Value))
    (v : Value) (v_type to_type : Type_) : StatusOr Value :=
  let nanos :=
    LanguageFeatureEnabled (language_options ctx) FEATURE_TIMESTAMP_NANOS in
  let scale := GetTimestampScale (language_options ctx) in
  let tz := default_timezone ctx in
  match kind v_type, kind to_type with
  (* Numeric casts. Identity casts are handled above. *)
  | TYPE_INT32, TYPE_INT64 => NumericCast int32_t int64_t v
  | TYPE_INT32, TYPE_UINT32 => NumericCast int32_t uint32_t v
  | TYPE_INT32, TYPE_UINT64 => NumericCast int32_t uint64_t v
  | TYPE_INT32, TYPE_BOOL => NumericCast int32_t bool_t v
  | TYPE_INT32, TYPE_FLOAT => NumericCast int32_t float_t v
  | TYPE_INT32, TYPE_DOUBLE => NumericCast int32_t double_t v
  | TYPE_INT32, TYPE_STRING => NumericToString int32_t v
  | TYPE_INT32, TYPE_NUMERIC => NumericCast int32_t NumericValue v
  | TYPE_INT32, TYPE_BIGNUMERIC => NumericCast int32_t BigNumericValue v

  | TYPE_UINT32, TYPE_INT32 => NumericCast uint32_t int32_t v
  | TYPE_UINT32, TYPE_INT64 => NumericCast uint32_t int64_t v
  | TYPE_UINT32, TYPE_UINT64 => NumericCast uint32_t uint64_t v
  | TYPE_UINT32, TYPE_BOOL => NumericCast uint32_t bool_t v
  | TYPE_UINT32, TYPE_FLOAT => NumericCast uint32_t float_t v
  | TYPE_UINT32, TYPE_DOUBLE => NumericCast uint32_t double_t v
  | TYPE_UINT32, TYPE_STRING => NumericToString uint32_t v
  | TYPE_UINT32, TYPE_NUMERIC => NumericCast uint32_t NumericValue v
  | TYPE_UINT32, TYPE_BIGNUMERIC => NumericCast uint32_t BigNumericValue v

  | TYPE_INT64, TYPE_INT32 => NumericCast int64_t int32_t v
  | TYPE_INT64, TYPE_UINT32 => NumericCast int64_t uint32_t v
  | TYPE_INT64, TYPE_UINT64 => NumericCast int64_t uint64_t v
  | TYPE_INT64, TYPE_BOOL => NumericCast int64_t bool_t v
  | TYPE_INT64, TYPE_FLOAT => NumericCast int64_t float_t v
  | TYPE_INT64, TYPE_DOUBLE => NumericCast int64_t double_t v
  | TYPE_INT64, TYPE_STRING => NumericToString int64_t v
  | TYPE_INT64, TYPE_NUMERIC => NumericCast int64_t NumericValue v
  | TYPE_INT64, TYPE_BIGNUMERIC => NumericCast int64_t BigNumericValue v

  | TYPE_UINT64, TYPE_INT32 => NumericCast uint64_t int32_t v
  | TYPE_UINT64, TYPE_INT64 => NumericCast uint64_t int64_t v
  | TYPE_UINT64, TYPE_UINT32 => NumericCast uint64_t uint32_t v
  | TYPE_UINT64, TYPE_BOOL => NumericCast uint64_t bool_t v
  | TYPE_UINT64, TYPE_FLOAT => NumericCast uint64_t float_t v
  | TYPE_UINT64, TYPE_DOUBLE => NumericCast uint64_t double_t v
  | TYPE_UINT64, TYPE_STRING => NumericToString uint64_t v
  | TYPE_UINT64, TYPE_NUMERIC => NumericCast uint64_t NumericValue v
  | TYPE_UINT64, TYPE_BIGNUMERIC => NumericCast uint64_t BigNumericValue v

  | TYPE_BOOL, TYPE_INT32 => NumericCast bool_t int32_t v
  | TYPE_BOOL, TYPE_INT64 => NumericCast bool_t int64_t v
  | TYPE_BOOL, TYPE_UINT32 => NumericCast bool_t uint32_t v
  | TYPE_BOOL, TYPE_UINT64 => NumericCast bool_t uint64_t v
  | TYPE_BOOL, TYPE_STRING => NumericToString bool_t v

  | TYPE_FLOAT, TYPE_INT32 => NumericCast float_t int32_t v
  | TYPE_FLOAT, TYPE_INT64 => NumericCast float_t int64_t v
  | TYPE_FLOAT, TYPE_UINT32 => NumericCast float_t uint32_t v
  | TYPE_FLOAT, TYPE_UINT64 => NumericCast float_t uint64_t v
  | TYPE_FLOAT, TYPE_DOUBLE => NumericCast float_t double_t v
  | TYPE_FLOAT, TYPE_STRING => NumericToString float_t v
  | TYPE_FLOAT, TYPE_NUMERIC => NumericCast float_t NumericValue v
  | TYPE_FLOAT, TYPE_BIGNUMERIC => NumericCast float_t BigNumericValue v

  | TYPE_DOUBLE, TYPE_INT32 => NumericCast double_t int32_t v
  | TYPE_DOUBLE, TYPE_INT64 => NumericCast double_t int64_t v
  | TYPE_DOUBLE, TYPE_UINT32 => NumericCast double_t uint32_t v
  | TYPE_DOUBLE, TYPE_UINT64 => NumericCast double_t uint64_t v
  | TYPE_DOUBLE, TYPE_FLOAT => NumericCast double_t float_t v
  | TYPE_DOUBLE, TYPE_STRING => NumericToString double_t v
  | TYPE_DOUBLE, TYPE_NUMERIC => NumericCast double_t NumericValue v
  | TYPE_DOUBLE, TYPE_BIGNUMERIC => NumericCast double_t BigNumericValue v

  | TYPE_INT32, TYPE_ENUM
  | TYPE_INT64, TYPE_ENUM
  | TYPE_UINT32, TYPE_ENUM =>
      to_enum ← checked (AsEnum to_type);
      number ← checked (ToInt64 v);
      let to_value := Value_Enum to_enum number in
      if negb (is_valid to_value)
      then MakeEvalError ("Out of range cast of integer " +:+ pretty number
                          +:+ " to enum type " +:+ DebugString lib to_type)
      else Ok to_value
  | TYPE_UINT64, TYPE_ENUM =>
      (* Static cast may turn out-of-bound uint64_t's to negative
         int64_t's which will yield invalid enums. *)
      to_enum ← checked (AsEnum to_type);
      number ← checked (uint64_value v);
      let to_value := Value_Enum to_enum (static_cast_int64 number) in
      if negb (is_valid to_value)
      then MakeEvalError ("Out of range cast of integer " +:+ pretty number
                          +:+ " to enum type " +:+ DebugString lib to_type)
      else Ok to_value

  | TYPE_STRING, TYPE_BOOL => StringToNumeric bool_t v
  | TYPE_STRING, TYPE_INT32 => StringToNumeric int32_t v
  | TYPE_STRING, TYPE_INT64 => StringToNumeric int64_t v
  | TYPE_STRING, TYPE_UINT32 => StringToNumeric uint32_t v
  | TYPE_STRING, TYPE_UINT64 => StringToNumeric uint64_t v
  | TYPE_STRING, TYPE_FLOAT => StringToNumeric float_t v
  | TYPE_STRING, TYPE_DOUBLE => StringToNumeric double_t v
  | TYPE_STRING, TYPE_NUMERIC => StringToNumeric NumericValue v
  | TYPE_STRING, TYPE_BIGNUMERIC => StringToNumeric BigNumericValue v

  | TYPE_STRING, TYPE_ENUM =>
      to_enum ← checked (AsEnum to_type);
      s ← checked (string_value v);
      let to_value := Value_Enum_name to_enum s in
      if negb (is_valid to_value)
      then MakeEvalError ("Out of range cast of string '" +:+ s
                          +:+ "' to enum type " +:+ DebugString lib to_type)
      else Ok to_value

  | TYPE_STRING, TYPE_DATE =>
      s ← checked (string_value v);
      date ← ConvertStringToDate lib s;
      Ok (VDate date)
  | TYPE_STRING, TYPE_TIMESTAMP =>
      s ← checked (string_value v);
      if nanos then
        timestamp ← ConvertStringToTimestamp_time lib s tz kNanoseconds true;
        Ok (VTimestamp timestamp)
      else
        timestamp ← ConvertStringToTimestamp_int64 lib s tz kMicroseconds;
        Ok (Value_TimestampFromUnixMicros timestamp)
  | TYPE_STRING, TYPE_JSON =>
      s ← checked (string_value v);
      if LanguageFeatureEnabled (language_options ctx)
           FEATURE_JSON_NO_VALIDATION
      then Ok (VJson false s)
      else
        match ParseJSONString lib s
                (LanguageFeatureEnabled (language_options ctx)
                   FEATURE_JSON_LEGACY_PARSE) with
        | Ok json_value => Ok (VJson true json_value)
        | Failed status => MakeEvalError (error_message status)
        | Aborted => Aborted
        end

  | TYPE_TIMESTAMP, TYPE_STRING =>
      timestamp ←
        (if nanos then
           time ← checked (ToTime v);
           ConvertTimestampToString lib time kNanoseconds tz
         else
           micros ← checked (ToUnixMicros v);
           ConvertTimestampToStringWithTruncation lib micros kMicroseconds
             tz);
      Ok (VString timestamp)
  | TYPE_DATE, TYPE_TIMESTAMP =>
      date ← checked (date_value v);
      timestamp ← ConvertDateToTimestamp lib date kMicroseconds tz;
      Ok (Value_TimestampFromUnixMicros timestamp)
  | TYPE_TIMESTAMP, TYPE_DATE =>
      micros ← checked (ToUnixMicros v);
      date ← ExtractDateFromTimestamp lib micros kMicroseconds tz;
      Ok (VDate date)
  | TYPE_STRING, TYPE_BYTES =>
      s ← checked (string_value v);
      Ok (VBytes s)

  | TYPE_STRING, TYPE_PROTO =>
      (* A ProtoType requires a descriptor, so the source's branch for
         a null descriptor cannot be taken. *)
      to_proto ← checked (AsProto to_type);
      s ← checked (string_value v);
      message ← StringToProto lib s (NewMessage lib to_proto);
      let '(is_valid_, string_value_) := SerializeToString lib message in
      if negb is_valid_ then
        let output_string :=
          PrettyTruncateUTF8 lib (ToStringLiteral lib s)
            MAX_LITERAL_DISPLAY_LENGTH in
        MakeEvalError ("Invalid cast to type " +:+ DebugString lib to_type
                       +:+ " from string: " +:+ output_string)
      else Ok (VProto to_proto string_value_)

  | TYPE_BYTES, TYPE_STRING =>
      utf8 ← checked (bytes_value v);
      if negb (IsWellFormedUTF8 lib utf8)
      then MakeEvalError "Invalid cast of bytes to UTF8 string"
      else Ok (VString utf8)

  | TYPE_BYTES, TYPE_PROTO =>
      to_proto ← checked (AsProto to_type);
      bytes ← checked (bytes_value v);
      Ok (VProto to_proto bytes)
  | TYPE_DATE, TYPE_STRING =>
      d ← checked (date_value v);
      date ← ConvertDateToString lib d;
      Ok (VString date)

  | TYPE_ENUM, TYPE_STRING =>
      name ← checked (enum_name v);
      Ok (VString name)

  | TYPE_ENUM, TYPE_INT32 =>
      number ← checked (enum_value v);
      Ok (VInt32 number)
  | TYPE_ENUM, TYPE_INT64 =>
      number ← checked (enum_value v);
      NumericValueCast int32_t int64_t number
  | TYPE_ENUM, TYPE_UINT32 =>
      number ← checked (enum_value v);
      NumericValueCast int32_t uint32_t number
  | TYPE_ENUM, TYPE_UINT64 =>
      number ← checked (enum_value v);
      NumericValueCast int32_t uint64_t number

  | TYPE_ENUM, TYPE_ENUM =>
      if negb (Equivalent lib v_type to_type)
      then MakeSqlError ("Invalid enum cast from " +:+ DebugString lib v_type
                         +:+ " to " +:+ DebugString lib to_type)
      else
        to_enum ← checked (AsEnum to_type);
        number ← checked (enum_value v);
        let to_value := Value_Enum to_enum number in
        if negb (is_valid to_value) then
          shown ← checked (ToInt64 v);
          MakeEvalError
            ("Out of range enum value " +:+ pretty shown
             +:+ " when converting enum type " +:+ DebugString lib to_type
             +:+ " to a different definition of the same enum")
        else Ok to_value

  | TYPE_STRING, TYPE_TIME =>
      s ← checked (string_value v);
      time ← ConvertStringToTime lib s scale;
      Ok (VTime time)
  | TYPE_TIME, TYPE_STRING =>
      t ← checked (time_value v);
      result ← ConvertTimeToString lib t scale;
      Ok (VString result)
  | TYPE_TIMESTAMP, TYPE_TIME =>
      t ← checked (ToTime v);
      time ← ConvertTimestampToTime lib t tz;
      Ok (VTime time)

  | TYPE_STRING, TYPE_DATETIME =>
      s ← checked (string_value v);
      datetime ← ConvertStringToDatetime lib s scale;
      Ok (VDatetime datetime)
  | TYPE_DATETIME, TYPE_STRING =>
      dt ← checked (datetime_value v);
      result ← ConvertDatetimeToString lib dt scale;
      Ok (VString result)
  | TYPE_DATETIME, TYPE_TIMESTAMP =>
      dt ← checked (datetime_value v);
      time ← ConvertDatetimeToTimestamp lib dt tz;
      Ok (VTimestamp time)
  | TYPE_TIMESTAMP, TYPE_DATETIME =>
      t ← checked (ToTime v);
      datetime ← ConvertTimestampToDatetime lib t tz;
      Ok (VDatetime datetime)
  | TYPE_DATETIME, TYPE_DATE =>
      dt ← checked (datetime_value v);
      date ← ExtractDateFromDatetime lib dt;
      Ok (VDate date)
  | TYPE_DATE, TYPE_DATETIME =>
      d ← checked (date_value v);
      match ConstructDatetime lib d with
      | Ok datetime => Ok (VDatetime datetime)
      | _ => Aborted
      end
  | TYPE_DATETIME, TYPE_TIME =>
      dt ← checked (datetime_value v);
      time ← ExtractTimeFromDatetime lib dt;
      Ok (VTime time)

  | TYPE_STRUCT, TYPE_STRUCT =>
      v_fields ← checked (AsStruct v_type);
      to_fields ← checked (AsStruct to_type);
      if negb (bool_decide (length v_fields = length to_fields))
      then UnsupportedCast v_type to_type
      else
        casted_field_values ← CastFields to_fields;
        Ok (VStruct to_fields casted_field_values)

  | TYPE_PROTO, TYPE_STRING =>
      v_proto ← checked (AsProto v_type);
      bytes ← checked (ToCord v);
      match ParsePartialFromString lib v_proto bytes with
      | None =>
          let display_bytes :=
            PrettyTruncateUTF8 lib (ToBytesLiteral lib bytes)
              MAX_LITERAL_DISPLAY_LENGTH in
          MakeEvalError ("Invalid cast to string from type "
                         +:+ DebugString lib v_type +:+ ": "
                         +:+ display_bytes)
      | Some message =>
          printed_msg ← ProtoToString lib message;
          Ok (VString printed_msg)
      end

  | TYPE_PROTO, TYPE_BYTES =>
      bytes ← checked (ToCord v);
      Ok (VBytes bytes)

  | TYPE_PROTO, TYPE_PROTO =>
      if negb (Equivalent lib v_type to_type)
      then MakeSqlError ("Invalid proto cast from "
                         +:+ DebugString lib v_type
                         +:+ " to " +:+ DebugString lib to_type)
      else
        to_proto ← checked (AsProto to_type);
        bytes ← checked (ToCord v);
        Ok (VProto to_proto bytes)

  | TYPE_ARRAY, TYPE_ARRAY =>
      _ ← ValidateCoercion ctx v to_type;
      to_element_type ← checked (AsArray to_type);
      casted_elements ← CastElements to_element_type;
      order ← checked (order_kind v);
      ArrayChecked lib to_type order casted_elements

  | TYPE_NUMERIC, TYPE_INT32 => NumericCast NumericValue int32_t v
  | TYPE_NUMERIC, TYPE_INT64 => NumericCast NumericValue int64_t v
  | TYPE_NUMERIC, TYPE_UINT32 => NumericCast NumericValue uint32_t v
  | TYPE_NUMERIC, TYPE_UINT64 => NumericCast NumericValue uint64_t v
  | TYPE_NUMERIC, TYPE_FLOAT => NumericCast NumericValue float_t v
  | TYPE_NUMERIC, TYPE_DOUBLE => NumericCast NumericValue double_t v
  | TYPE_NUMERIC, TYPE_BIGNUMERIC => NumericCast NumericValue BigNumericValue v
  | TYPE_NUMERIC, TYPE_STRING => NumericToString NumericValue v

  | TYPE_BIGNUMERIC, TYPE_INT32 => NumericCast BigNumericValue int32_t v
  | TYPE_BIGNUMERIC, TYPE_INT64 => NumericCast BigNumericValue int64_t v
  | TYPE_BIGNUMERIC, TYPE_UINT32 => NumericCast BigNumericValue uint32_t v
  | TYPE_BIGNUMERIC, TYPE_UINT64 => NumericCast BigNumericValue uint64_t v
  | TYPE_BIGNUMERIC, TYPE_FLOAT => NumericCast BigNumericValue float_t v
  | TYPE_BIGNUMERIC, TYPE_DOUBLE => NumericCast BigNumericValue double_t v
  | TYPE_BIGNUMERIC, TYPE_NUMERIC => NumericCast BigNumericValue NumericValue v
  | TYPE_BIGNUMERIC, TYPE_STRING => NumericToString BigNumericValue v

  | TYPE_JSON, TYPE_STRING =>
      match v with
      | VJson true json => Ok (VString (JSONValue_ToString lib json))
      | VJson false json => Ok (VString json)
      | _ => Aborted
      end

  (* TODO: implement missing casts. *)
  | _, _ => default_case v_type to_type
  end.

(** The loop of the struct case: [casted_field_values[i]] is the cast
    of [v.field(i)] to the type of field [i] of the target, for [i] from
    0 up; the first failure is returned. *)
Definition CastFieldsLoop (cast : Value -> Type_ -> StatusOr Value)
    : list Value -> list StructField -> StatusOr (list Value) :=
  fix loop (fields : list Value) (to_fields : list StructField)
      {struct fields} : StatusOr (list Value) :=
    match to_fields with
    | [] => Ok []
    | to_field :: to_rest =>
        match fields with
        | [] => Aborted
        | field :: rest =>
            casted ← cast field (snd to_field);
            casted_rest ← loop rest to_rest;
            Ok (casted :: casted_rest)
        end
    end.

(** The loop of the array case: a NULL element becomes the NULL of the
    target element type, any other element is cast. *)
Definition CastElementsLoop (cast : Value -> Type_ -> StatusOr Value)
    (to_element_type : Type_) : list Value -> StatusOr (list Value) :=
  fix loop (elements : list Value) {struct elements}
      : StatusOr (list Value) :=
    match elements with
    | [] => Ok []
    | element :: rest =>
        casted ← (if is_null element then Ok (VNull to_element_type)
                  else cast element to_element_type);
        casted_rest ← loop rest;
        Ok (casted :: casted_rest)
    end.

(** [cast] of [from_value.field(i)], which crashes when the value
    stores no such field. *)
Definition CastFieldAt (cast : Value -> Type_ -> StatusOr Value)
    (fields : list Value) (i : nat) (to_type : Type_) : StatusOr Value :=
  match i, fields with
  | O, field :: _ => cast field to_type
  | S O, _ :: field :: _ => cast field to_type
  | _, _ => Aborted
  end.

(** The body of [CastContext::CastValue], up to its recursive calls:
    [CastField] is the map-entry cast's [CastValue] of a field,
    [CastFields] and [CastElements] are the loops of the struct and
    array cases. *)
Definition CastValue_body
    (default_case : Type_ -> Type_ -> StatusOr Value)
    (ctx : CastContext)
    (CastField : nat -> Type_ -> StatusOr Value)
    (CastFields : list StructField -> StatusOr (list Value))
    (CastElements : Type_ -> StatusOr (list Value))
    (from_value : Value) (to_type : Type_) : StatusOr Value :=
  match Value_type from_value with
  | None => RetCheckFailure "from_value.is_valid()"
  | Some v_type =>
      (* Use a shorter name inside the body of this method. *)
      let v := from_value in
      if Equals v_type to_type then
        (* Coercion from a value to the exact same type always works. *)
        Ok v
      else if IsExtendedType v_type || IsExtendedType to_type then
        CastWithExtendedType ctx from_value to_type
      else if LanguageFeatureEnabled (language_options ctx)
                FEATURE_V_1_3_PROTO_MAPS
              && IsMapEntryCast v_type to_type then
        DoMapEntryCast CastField v_type to_type
      else if negb (ContainsCast (GetTypeCoercionCost lib)
                      (kind v_type) (kind to_type)) then
        (* Check to see if the type kinds are castable. *)
        UnsupportedCast v_type to_type
      else if is_null v then
        (* NULL handling for Values occurs here. *)
        _ ← (if negb (IsSimpleType v_type)
                && bool_decide (kind v_type = kind to_type)
             then ValidateCoercion ctx v to_type
             else Ok tt);
        Ok (VNull to_type)
      else
        CastSwitch default_case ctx CastFields CastElements v v_type to_type
  end.

(** [CastContext::CastValue], with the result of the switch's
    [default:] label left open.  The map-entry cast calls the public
    [CastValue], which runs a fresh validated context without catalog. *)
Fixpoint CastContext_CastValue_with
    (default_case : Type_ -> Type_ -> StatusOr Value)
    (ctx : CastContext) (from_value : Value) (to_type : Type_)
    {struct from_value} : StatusOr Value :=
  CastValue_body default_case ctx
    (fun i t =>
       match from_value with
       | VStruct _ fields =>
           CastFieldAt
             (CastContext_CastValue_with default_case
                (CastContextWithValidation (default_timezone ctx)
                   (language_options ctx) None))
             fields i t
       | _ => Aborted
       end)
    (fun to_fields =>
       match from_value with
       | VStruct _ fields =>
           CastFieldsLoop (CastContext_CastValue_with default_case ctx)
             fields to_fields
       | _ => Aborted
       end)
    (fun to_element_type =>
       match from_value with
       | VArray _ _ elements =>
           CastElementsLoop (CastContext_CastValue_with default_case ctx)
             to_element_type elements
       | _ => Aborted
       end)
    from_value to_type.

(** [CastContext::CastValue]. *)
Definition CastContext_CastValue : CastContext -> Value -> Type_ ->
    StatusOr Value :=
  CastContext_CastValue_with UnimplementedCast.

(** The public [CastValue] and [internal::CastValueWithoutTypeValidation]. *)
Definition CastValue (from_value : Value) (default_timezone : TimeZone)
    (language_options : LanguageOptions) (to_type : Type_)
    (catalog : option Catalog) : StatusOr Value :=
  CastContext_CastValue
    (CastContextWithValidation default_timezone language_options catalog)
    from_value to_type.

Definition CastValueWithoutTypeValidation (from_value : Value)
    (default_timezone : TimeZone) (language_options : LanguageOptions)
    (to_type : Type_) (extended_conversion : option Function)
    : StatusOr Value :=
  CastContext_CastValue
    (CastContextWithoutValidation default_timezone language_options
       extended_conversion)
    from_value to_type.

End Cast.

(** The switch of [CastValue] is on [FCT(input_kind, output_kind)], the
    two kind numbers packed in one [uint64_t]. *)
Definition FCT (number : TypeKind -> Z) (input_kind output_kind : TypeKind)
    : Z :=
  (Z.shiftl (number input_kind) 32 + number output_kind) mod 2 ^ 64.

(** [FCT] tells kind pairs apart as long as the kind numbers are
    distinct and fit 32 bits, so the switch on [FCT] is a case analysis
    on the pair of kinds; this is how [CastSwitch] is written. *)
Lemma FCT_injective (number : TypeKind -> Z) (a b c d : TypeKind) :
  (forall k, 0 <= number k < 2 ^ 32) ->
  (forall k k', number k = number k' -> k = k') ->
  FCT number a b = FCT number c d -> a = c /\ b = d.
Proof.
  intros Hrange Hinj. unfold FCT. rewrite !Z.shiftl_mul_pow2 by lia.
  pose proof (Hrange a). pose proof (Hrange b).
  pose proof (Hrange c). pose proof (Hrange d).
  rewrite !Z.mod_small by lia.
  intros Heq. split; apply Hinj; lia.
Qed.

(** ** A sample library

    An instance of [Library] to run the casts on: integer conversions
    check the range of the target, types print as their kind, enums and
    protos are equivalent when their names agree, and the coercer accepts
    structs of equal arity and arrays.  The other entries fail. *)

Definition not_modelled {A} : StatusOr A :=
  Failed (mkStatus OtherError "not modelled").

Definition in_range (T : CType) (x : Z) : bool :=
  match T with
  | int32_t => (- 2 ^ 31 <=? x) && (x <? 2 ^ 31)
  | int64_t => (- 2 ^ 63 <=? x) && (x <? 2 ^ 63)
  | uint32_t => (0 <=? x) && (x <? 2 ^ 32)
  | uint64_t => (0 <=? x) && (x <? 2 ^ 64)
  | _ => false
  end.

Definition sample_Convert (F T : CType) : ctype F -> StatusOr (ctype T) :=
  match F, T with
  | (int32_t | int64_t | uint32_t | uint64_t) as F',
    (int32_t | int64_t | uint32_t | uint64_t) as T' =>
      fun x : Z =>
        if in_range T' x then Ok x
        else Failed (mkStatus EvalError ("out of range: " +:+ pretty x))
  | _, _ => fun _ => not_modelled
  end.

Definition sample_DebugString (t : Type_) : string :=
  match t with
  | SimpleType k => "SIMPLE#" +:+ pretty (TypeKind_index k)
  | EnumType d => "ENUM<" +:+ enum_full_name d +:+ ">"
  | ProtoType d => "PROTO<" +:+ proto_full_name d +:+ ">"
  | ArrayType _ => "ARRAY"
  | StructType fs => "STRUCT/" +:+ pretty (length fs)
  | ExtendedType n => n
  end.

Definition sample_Equivalent (a b : Type_) : bool :=
  match a, b with
  | EnumType d, EnumType d' =>
      String.eqb (enum_full_name d) (enum_full_name d')
  | ProtoType d, ProtoType d' =>
      String.eqb (proto_full_name d) (proto_full_name d')
  | _, _ => Equals a b
  end.

Definition sample_CoercesTo (_ : LanguageOptions) (_ : option Catalog)
    (v : Value) (to_type : Type_) (_ : bool) : bool :=
  match Value_type v, to_type with
  | Some (StructType fs), StructType fs' =>
      bool_decide (length fs = length fs')
  | Some (ArrayType _), ArrayType _ => true
  | _, _ => false
  end.

Definition sample_library : Library :=
  {| DebugString := sample_DebugString;
     Equivalent := sample_Equivalent;
     GetTypeCoercionCost := fun _ _ => 0;
     GetFieldTypeByTagNumber := fun _ _ => not_modelled;
     CoercesTo := sample_CoercesTo;
     Convert := sample_Convert;
     NumericToString_fn := fun _ _ => not_modelled;
     StringToNumeric_fn := fun _ _ => not_modelled;
     ConvertStringToDate := fun _ => not_modelled;
     ConvertStringToTimestamp_time := fun _ _ _ _ => not_modelled;
     ConvertStringToTimestamp_int64 := fun _ _ _ => not_modelled;
     ConvertTimestampToString := fun _ _ _ => not_modelled;
     ConvertTimestampToStringWithTruncation := fun _ _ _ => not_modelled;
     ConvertDateToTimestamp := fun _ _ _ => not_modelled;
     ExtractDateFromTimestamp := fun _ _ _ => not_modelled;
     ConvertDateToString := fun _ => not_modelled;
     ConvertStringToTime := fun _ _ => not_modelled;
     ConvertTimeToString := fun _ _ => not_modelled;
     ConvertTimestampToTime := fun _ _ => not_modelled;
     ConvertStringToDatetime := fun _ _ => not_modelled;
     ConvertDatetimeToString := fun _ _ => not_modelled;
     ConvertDatetimeToTimestamp := fun _ _ => not_modelled;
     ConvertTimestampToDatetime := fun _ _ => not_modelled;
     ExtractDateFromDatetime := fun _ => not_modelled;
     ConstructDatetime := fun _ => not_modelled;
     ExtractTimeFromDatetime := fun _ => not_modelled;
     ParseJSONString := fun _ _ => not_modelled;
     JSONValue_ToString := fun s => s;
     IsWellFormedUTF8 := fun _ => true;
     ToStringLiteral := fun s => s;
     ToBytesLiteral := fun s => s;
     PrettyTruncateUTF8 := fun s _ => s;
     Message := unit;
     NewMessage := fun _ => tt;
     StringToProto := fun _ _ => not_modelled;
     ProtoToString := fun _ => not_modelled;
     SerializeToString := fun _ => (false, "");
     ParsePartialFromString := fun _ _ => None;
     MergeValueToProtoField := fun _ _ _ _ => not_modelled;
     ArrayChecked := fun t order elements =>
       match t with
       | ArrayType e => Ok (VArray e order elements)
       | _ => Aborted
       end |}.

Definition sample_options : LanguageOptions :=
  mkLanguageOptions (fun _ => true) PRODUCT_INTERNAL.

Definition sample_context : CastContext :=
  CastContextWithValidation sample_library "UTC" sample_options None.

(** Enum definitions used in the examples. *)
Definition Color : EnumDescriptor :=
  mkEnumDescriptor "test.Color" [("RED", 0); ("GREEN", 1); ("BLUE", 2)].
Definition Color_v2 : EnumDescriptor :=
  mkEnumDescriptor "test.Color" [("RED", 0); ("GREEN", 1)].
Definition Shape : EnumDescriptor :=
  mkEnumDescriptor "test.Shape" [("ROUND", 0)].
Definition Sign : EnumDescriptor :=
  mkEnumDescriptor "test.Sign" [("MINUS", -1); ("ZERO", 0); ("PLUS", 1)].

(** ** Induction on values *)

Section Value_induction.
Variable P : Value -> Prop.
Hypothesis Harray : forall e o elements,
  Forall P elements -> P (VArray e o elements).
Hypothesis Hstruct : forall fs fields,
  Forall P fields -> P (VStruct fs fields).
Hypothesis Hother : forall v,
  match v with VArray _ _ _ | VStruct _ _ => True | _ => P v end.

Fixpoint Value_nested_ind (v : Value) : P v :=
  let all :=
    fix all (l : list Value) : Forall P l :=
      match l with
      | [] => @List.Forall_nil _ P
      | x :: r => @List.Forall_cons _ P x r (Value_nested_ind x) (all r)
      end in
  match v as v0 return P v0 with
  | VArray e o elements => Harray e o elements (all elements)
  | VStruct fs fields => Hstruct fs fields (all fields)
  | InvalidValue => Hother InvalidValue
  | VNull t => Hother (VNull t)
  | VInt32 x => Hother (VInt32 x)
  | VInt64 x => Hother (VInt64 x)
  | VUint32 x => Hother (VUint32 x)
  | VUint64 x => Hother (VUint64 x)
  | VBool x => Hother (VBool x)
  | VFloat x => Hother (VFloat x)
  | VDouble x => Hother (VDouble x)
  | VString x => Hother (VString x)
  | VBytes x => Hother (VBytes x)
  | VDate x => Hother (VDate x)
  | VTimestamp x => Hother (VTimestamp x)
  | VTime x => Hother (VTime x)
  | VDatetime x => Hother (VDatetime x)
  | VGeography => Hother VGeography
  | VNumeric x => Hother (VNumeric x)
  | VBigNumeric x => Hother (VBigNumeric x)
  | VJson b x => Hother (VJson b x)
  | VEnum d x => Hother (VEnum d x)
  | VProto d x => Hother (VProto d x)
  | VExtended n x => Hother (VExtended n x)
  end.
End Value_induction.

(** ** Facts about the table *)

Lemma ContainsCast_cost (cost cost' : TypeKind -> TypeKind -> Z)
    (from to : TypeKind) :
  ContainsCast cost from to = ContainsCast cost' from to.
Proof. destruct from, to; vm_compute; reflexivity. Qed.

(** The rows of the table, as a boolean function of the kind pair. *)
Definition declared_cast (from to : TypeKind) : bool :=
  bool_decide ((from, to) ∈ (fst <$> cast_rows)).

Lemma ContainsCast_declared (cost : TypeKind -> TypeKind -> Z)
    (from to : TypeKind) :
  ContainsCast cost from to = declared_cast from to.
Proof. destruct from, to; vm_compute; reflexivity. Qed.


(** Two types of the same simple kind are the same type. *)
Lemma simple_kind_eq (a b : Type_) :
  IsSimpleKind (kind a) = true -> kind a = kind b -> a = b.
Proof.
  destruct a, b; simpl; intros Hs Hk; try discriminate; try congruence;
    subst; discriminate.
Qed.

(** ** Unfolding [CastValue] *)

Section CastFacts.

Variable lib : Library.

Lemma CastContext_CastValue_with_unfold default_case ctx from_value to_type :
  CastContext_CastValue_with lib default_case ctx from_value to_type =
  CastValue_body lib default_case ctx
    (fun i t =>
       match from_value with
       | VStruct _ fields =>
           CastFieldAt
             (CastContext_CastValue_with lib default_case
                (CastContextWithValidation lib (default_timezone ctx)
                   (language_options ctx) None))
             fields i t
       | _ => Aborted
       end)
    (fun to_fields =>
       match from_value with
       | VStruct _ fields =>
           CastFieldsLoop
             (CastContext_CastValue_with lib default_case ctx)
             fields to_fields
       | _ => Aborted
       end)
    (fun to_element_type =>
       match from_value with
       | VArray _ _ elements =>
           CastElementsLoop
             (CastContext_CastValue_with lib default_case ctx)
             to_element_type elements
       | _ => Aborted
       end)
    from_value to_type.
Proof. destruct from_value; reflexivity. Qed.

End CastFacts.

(** ** The coercion predicates *)

(** C5: each coercion predicate is true of exactly the cast classes it
    names: implicit coercion of [IMPLICIT] alone; literal coercion of
    [IMPLICIT], [EXPLICIT_OR_LITERAL] and
    [EXPLICIT_OR_LITERAL_OR_PARAMETER]; parameter coercion of [IMPLICIT]
    and [EXPLICIT_OR_LITERAL_OR_PARAMETER]; explicit cast of all four. *)
Theorem coercion_predicates_characterised (t : CastFunctionType) :
  (SupportsImplicitCoercion t = true <-> t = IMPLICIT)
  /\ (SupportsLiteralCoercion t = true <->
        t = IMPLICIT \/ t = EXPLICIT_OR_LITERAL
        \/ t = EXPLICIT_OR_LITERAL_OR_PARAMETER)
  /\ (SupportsParameterCoercion t = true <->
        t = IMPLICIT \/ t = EXPLICIT_OR_LITERAL_OR_PARAMETER)
  /\ SupportsExplicitCast t = true.
Proof.
  destruct t; vm_compute; repeat split; intros; auto; try discriminate;
    repeat match goal with
           | H : _ \/ _ |- _ => destruct H
           end; discriminate.
Qed.

(** C10: the predicates are ordered by permissiveness: implicit coercion
    implies parameter coercion, which implies literal coercion, which
    implies explicit cast; and each step is strict, as some cast class
    separates the two predicates. *)
Theorem coercion_predicates_chain :
  (forall t, (SupportsImplicitCoercion t = true ->
                SupportsParameterCoercion t = true)
             /\ (SupportsParameterCoercion t = true ->
                   SupportsLiteralCoercion t = true)
             /\ (SupportsLiteralCoercion t = true ->
                   SupportsExplicitCast t = true))
  /\ (exists t, SupportsParameterCoercion t = true
                /\ SupportsImplicitCoercion t = false)
  /\ (exists t, SupportsLiteralCoercion t = true
                /\ SupportsParameterCoercion t = false)
  /\ (exists t, SupportsExplicitCast t = true
                /\ SupportsLiteralCoercion t = false).
Proof.
  split.
  - intros []; vm_compute; repeat split; intros; congruence.
  - split; [exists EXPLICIT_OR_LITERAL_OR_PARAMETER | split;
      [exists EXPLICIT_OR_LITERAL | exists EXPLICIT]]; split; reflexivity.
Qed.

(** ** Identity entries of the table *)

(** C4, as the code has it: every kind but the kind of extended types has
    its identity entry in the table, with class [IMPLICIT]. *)
Theorem cast_table_identity_entries
    (cost : TypeKind -> TypeKind -> Z) (K : TypeKind) :
  K <> TYPE_EXTENDED ->
  exists p, GetZetaSQLCasts cost !! (K, K) = Some p
            /\ cast_type p = IMPLICIT.
Proof.
  intros HK. destruct K; try congruence;
    vm_compute; eexists; split; reflexivity.
Qed.

Lemma cast_table_identity_entries_witness :
  TYPE_STRUCT <> TYPE_EXTENDED
  /\ exists p, GetZetaSQLCasts (fun _ _ => 0) !! (TYPE_STRUCT, TYPE_STRUCT)
               = Some p
               /\ cast_type p = IMPLICIT.
Proof.
  split; [discriminate |].
  apply (cast_table_identity_entries (fun _ _ => 0) TYPE_STRUCT).
  discriminate.
Defined.

(** The table has no entry from the extended kind to itself: casts of
    extended types never reach the table. *)
Lemma cast_table_no_extended_identity :
  ~ (exists p,
       GetZetaSQLCasts (fun _ _ => 0) !! (TYPE_EXTENDED, TYPE_EXTENDED)
       = Some p
       /\ cast_type p = IMPLICIT).
Proof. intros [p [H _]]. vm_compute in H. discriminate. Qed.

(** ** Identity and NULL casts *)

Section CastTheorems.

Variable lib : Library.
Variable ctx : CastContext.

(** C2: a valid value whose type equals the target type is returned as
    it is, whatever its kind: the test comes first in [CastValue]. *)
Theorem CastValue_identity (v : Value) (v_type T : Type_) :
  Value_type v = Some v_type ->
  Equals v_type T = true ->
  CastContext_CastValue lib ctx v T = Ok v.
Proof.
  intros Hv He. unfold CastContext_CastValue.
  rewrite CastContext_CastValue_with_unfold. unfold CastValue_body.
  rewrite Hv, He. reflexivity.
Qed.



End CastTheorems.


Lemma CastValue_identity_witness :
  Value_type (VExtended "acme.Money" "12.50") = Some (ExtendedType "acme.Money")
  /\ Equals (ExtendedType "acme.Money") (ExtendedType "acme.Money") = true
  /\ CastContext_CastValue sample_library sample_context
       (VExtended "acme.Money" "12.50") (ExtendedType "acme.Money")
     = Ok (VExtended "acme.Money" "12.50").
Proof.
  split; [reflexivity |]. split; [reflexivity |].
  apply (CastValue_identity sample_library sample_context
           (VExtended "acme.Money" "12.50")
           (ExtendedType "acme.Money") (ExtendedType "acme.Money"));
    reflexivity.
Defined.


(** ** Reaching the switch *)

Lemma IsMapEntryCast_to_proto (from to : Type_) :
  IsProto to = false -> IsMapEntryCast from to = false.
Proof.
  intros H. unfold IsMapEntryCast. rewrite H.
  rewrite andb_false_r. reflexivity.
Qed.

(** [static_cast<int64_t>] of a [uint64_t] is the two's-complement wrap:
    the value itself up to 2^63-1, the value minus 2^64 from 2^63 on. *)
Lemma static_cast_int64_wrap (x : Z) :
  0 <= x < 2 ^ 64 ->
  static_cast_int64 x = if x <? 2 ^ 63 then x else x - 2 ^ 64.
Proof.
  intros Hx. unfold static_cast_int64.
  destruct (Z.ltb_spec x (2 ^ 63)).
  - rewrite Z.mod_small by lia. lia.
  - replace (x + 2 ^ 63) with (x - 2 ^ 63 + 1 * 2 ^ 64) by lia.
    rewrite Z.mod_add by lia. rewrite Z.mod_small by lia. lia.
Qed.

Section Switch.

Variable lib : Library.
Variable ctx : CastContext.

(** A non-NULL value of a type that differs from the target, with
    neither type extended, no map-entry cast and the kind pair in the
    table, is handled by the switch. *)
Lemma CastValue_reaches_switch default_case (v : Value) (v_type T : Type_) :
  Value_type v = Some v_type ->
  is_null v = false ->
  Equals v_type T = false ->
  IsExtendedType v_type = false ->
  IsExtendedType T = false ->
  IsMapEntryCast v_type T = false ->
  declared_cast (kind v_type) (kind T) = true ->
  CastContext_CastValue_with lib default_case ctx v T =
  CastSwitch lib default_case ctx
    (fun to_fields =>
       match v with
       | VStruct _ fields =>
           CastFieldsLoop (CastContext_CastValue_with lib default_case ctx)
             fields to_fields
       | _ => Aborted
       end)
    (fun to_element_type =>
       match v with
       | VArray _ _ elements =>
           CastElementsLoop (CastContext_CastValue_with lib default_case ctx)
             to_element_type elements
       | _ => Aborted
       end)
    v v_type T.
Proof.
  intros Hv Hn He HS HT Hm Hc.
  rewrite CastContext_CastValue_with_unfold. unfold CastValue_body.
  rewrite Hv, He, HS, HT, Hm, andb_false_r. cbn [orb].
  rewrite ContainsCast_declared, Hc, Hn. reflexivity.
Qed.

(** *** Integers to enums *)

(** INT32, INT64 and UINT32 to an enum: the number itself is looked up
    in the enum definition. *)
Lemma CastValue_int_to_enum (v : Value) (x : Z) (d : EnumDescriptor) :
  v = VInt32 x \/ v = VInt64 x \/ v = VUint32 x ->
  CastContext_CastValue lib ctx v (EnumType d) =
  if IsValidEnumValue d x then Ok (VEnum d x)
  else MakeEvalError ("Out of range cast of integer " +:+ pretty x
                      +:+ " to enum type " +:+ DebugString lib (EnumType d)).
Proof.
  unfold CastContext_CastValue.
  intros [-> | [-> | ->]];
    (erewrite CastValue_reaches_switch by reflexivity);
    unfold CastSwitch; cbn [kind Value_type AsEnum ToInt64 checked];
    unfold Value_Enum; cbn [mbind StatusOr_bind];
    destruct (IsValidEnumValue d x); reflexivity.
Qed.

(** UINT64 to an enum: the number is first wrapped to an [int64_t], and
    the wrapped number is looked up; the error message shows the number
    before the wrap. *)
Lemma CastValue_uint64_to_enum_unfold (x : Z) (d : EnumDescriptor) :
  CastContext_CastValue lib ctx (VUint64 x) (EnumType d) =
  if IsValidEnumValue d (static_cast_int64 x)
  then Ok (VEnum d (static_cast_int64 x))
  else MakeEvalError ("Out of range cast of integer " +:+ pretty x
                      +:+ " to enum type " +:+ DebugString lib (EnumType d)).
Proof.
  unfold CastContext_CastValue.
  (erewrite CastValue_reaches_switch by reflexivity).
  unfold CastSwitch; cbn [kind Value_type AsEnum uint64_value checked].
  unfold Value_Enum; cbn [mbind StatusOr_bind].
  destruct (IsValidEnumValue d (static_cast_int64 x)); reflexivity.
Qed.

(** C9: a UINT64 is wrapped by two's complement to a signed 64-bit
    number before the enum lookup, and the cast succeeds exactly when
    the wrapped number names a value of the enum.  Up to 2^63-1 the
    wrapped number is the value itself; from 2^63 on it is the value
    minus 2^64, a negative number, and the cast succeeds whenever the
    enum declares that negative number (so 2^64-1 casts to an enum that
    declares -1); any other outcome is a dynamic error showing the
    value before the wrap. *)
Theorem CastValue_uint64_to_enum :
  (forall (x : Z) (d : EnumDescriptor),
     0 <= x < 2 ^ 63 ->
     CastContext_CastValue lib ctx (VUint64 x) (EnumType d) =
     if IsValidEnumValue d x then Ok (VEnum d x)
     else MakeEvalError
            ("Out of range cast of integer " +:+ pretty x
             +:+ " to enum type " +:+ DebugString lib (EnumType d)))
  /\ (forall (x : Z) (d : EnumDescriptor),
        2 ^ 63 <= x < 2 ^ 64 ->
        x - 2 ^ 64 < 0
        /\ CastContext_CastValue lib ctx (VUint64 x) (EnumType d) =
           if IsValidEnumValue d (x - 2 ^ 64)
           then Ok (VEnum d (x - 2 ^ 64))
           else MakeEvalError
                  ("Out of range cast of integer " +:+ pretty x
                   +:+ " to enum type " +:+ DebugString lib (EnumType d)))
  /\ 2 ^ 63 - 1 < 18446744073709551615 < 2 ^ 64
  /\ CastContext_CastValue lib ctx (VUint64 18446744073709551615)
       (EnumType Sign)
     = Ok (VEnum Sign (-1)).
Proof.
  split; [| split; [| split]].
  - intros x d Hx. rewrite CastValue_uint64_to_enum_unfold.
    rewrite (static_cast_int64_wrap x) by lia.
    rewrite (proj2 (Z.ltb_lt x (2 ^ 63))) by lia. reflexivity.
  - intros x d Hx. split; [lia |].
    rewrite CastValue_uint64_to_enum_unfold.
    rewrite (static_cast_int64_wrap x) by lia.
    rewrite (proj2 (Z.ltb_ge x (2 ^ 63))) by lia. reflexivity.
  - split; reflexivity.
  - rewrite CastValue_uint64_to_enum_unfold. reflexivity.
Qed.

(** C7, at the input where the code leaves it: 18446744073709551615 is
    no value of the enum [Sign], whose numbers are -1, 0 and 1, and yet
    the UINT64 of that number casts to [Sign], as the value -1. *)
Theorem CastValue_uint64_out_of_range_accepted :
  IsValidEnumValue Sign 18446744073709551615 = false
  /\ CastContext_CastValue lib ctx (VUint64 18446744073709551615)
       (EnumType Sign)
     = Ok (VEnum Sign (-1)).
Proof.
  split; [reflexivity |].
  rewrite CastValue_uint64_to_enum_unfold. reflexivity.
Qed.

(** *** Enums to enums *)

(** C8: an enum value cast to another enum type fails with a static
    error when the two types are not equivalent, whatever the value; when
    they are, the number is looked up in the target definition, and a
    number it does not declare is a dynamic error. *)
Theorem CastValue_enum_to_enum (d d' : EnumDescriptor) (n : Z) :
  d <> d' ->
  CastContext_CastValue lib ctx (VEnum d n) (EnumType d') =
  if Equivalent lib (EnumType d) (EnumType d') then
    if IsValidEnumValue d' n then Ok (VEnum d' n)
    else MakeEvalError
           ("Out of range enum value " +:+ pretty n
            +:+ " when converting enum type " +:+ DebugString lib (EnumType d')
            +:+ " to a different definition of the same enum")
  else
    MakeSqlError ("Invalid enum cast from " +:+ DebugString lib (EnumType d)
                  +:+ " to " +:+ DebugString lib (EnumType d')).
Proof.
  intros Hd.
  assert (He : Equals (EnumType d) (EnumType d') = false)
    by (apply bool_decide_eq_false; exact Hd).
  unfold CastContext_CastValue.
  rewrite (CastValue_reaches_switch _ (VEnum d n) (EnumType d) (EnumType d')
             eq_refl eq_refl He eq_refl eq_refl eq_refl eq_refl).
  unfold CastSwitch; cbn [kind].
  destruct (Equivalent lib (EnumType d) (EnumType d')); [| reflexivity].
  cbn [negb AsEnum enum_value ToInt64 checked].
  unfold Value_Enum; cbn [mbind StatusOr_bind].
  destruct (IsValidEnumValue d' n); reflexivity.
Qed.

End Switch.

Lemma CastValue_enum_to_enum_witness :
  Color <> Color_v2
  /\ CastContext_CastValue sample_library sample_context (VEnum Color 2)
       (EnumType Color_v2)
     = MakeEvalError
         "Out of range enum value 2 when converting enum type ENUM<test.Color> to a different definition of the same enum".
Proof.
  assert (H : Color <> Color_v2) by discriminate.
  split; [exact H |].
  rewrite (CastValue_enum_to_enum sample_library sample_context
             Color Color_v2 2 H).
  reflexivity.
Defined.

Lemma CastValue_uint64_to_enum_witness :
  (0 <= 2 < 2 ^ 63
   /\ CastContext_CastValue sample_library sample_context (VUint64 2)
        (EnumType Color)
      = Ok (VEnum Color 2))
  /\ (2 ^ 63 <= 18446744073709551615 < 2 ^ 64
      /\ CastContext_CastValue sample_library sample_context
           (VUint64 18446744073709551615) (EnumType Sign)
         = Ok (VEnum Sign (-1)))
  /\ (2 ^ 63 <= 9223372036854775808 < 2 ^ 64
      /\ CastContext_CastValue sample_library sample_context
           (VUint64 9223372036854775808) (EnumType Sign)
         = MakeEvalError
             "Out of range cast of integer 9223372036854775808 to enum type ENUM<test.Sign>").
Proof.
  assert (H1 : 0 <= 2 < 2 ^ 63) by (split; [discriminate | reflexivity]).
  assert (H2 : 2 ^ 63 <= 18446744073709551615 < 2 ^ 64)
    by (split; [discriminate | reflexivity]).
  assert (H3 : 2 ^ 63 <= 9223372036854775808 < 2 ^ 64)
    by (split; [discriminate | reflexivity]).
  split; [| split].
  - split; [exact H1 |].
    rewrite (proj1 (CastValue_uint64_to_enum sample_library sample_context)
               2 Color H1).
    reflexivity.
  - split; [exact H2 |].
    rewrite (proj2 (proj1 (proj2 (CastValue_uint64_to_enum sample_library
                                    sample_context))
                      18446744073709551615 Sign H2)).
    reflexivity.
  - split; [exact H3 |].
    rewrite (proj2 (proj1 (proj2 (CastValue_uint64_to_enum sample_library
                                    sample_context))
                      9223372036854775808 Sign H3)).
    reflexivity.
Defined.

(** ** Struct casts *)

(** What a struct cast of matching arity is to do: cast each field to
    the type of the target field at its position, in field order, and
    stop at the first field that fails. *)
Fixpoint cast_each_in_order (cast : Value -> Type_ -> StatusOr Value)
    (pairs : list (Value * Type_)) : StatusOr (list Value) :=
  match pairs with
  | [] => Ok []
  | (field, to_type) :: rest =>
      match cast field to_type with
      | Ok casted =>
          match cast_each_in_order cast rest with
          | Ok casted_rest => Ok (casted :: casted_rest)
          | Failed status => Failed status
          | Aborted => Aborted
          end
      | Failed status => Failed status
      | Aborted => Aborted
      end
  end.

Lemma CastFieldsLoop_in_order (cast : Value -> Type_ -> StatusOr Value)
    (fields : list Value) (to_fields : list StructField) :
  length fields = length to_fields ->
  CastFieldsLoop cast fields to_fields =
  cast_each_in_order cast (zip fields (snd <$> to_fields)).
Proof.
  revert to_fields.
  induction fields as [|field rest IH]; intros [|to_field to_rest] Hlen;
    try discriminate; [reflexivity |].
  cbn [CastFieldsLoop zip zip_with fmap list_fmap cast_each_in_order].
  destruct (cast field (snd to_field)); cbn [mbind StatusOr_bind];
    try reflexivity.
  fold (CastFieldsLoop cast rest to_rest).
  rewrite IH by (simpl in Hlen; congruence).
  destruct (cast_each_in_order cast (zip rest (snd <$> to_rest)));
    reflexivity.
Qed.

(** All fields cast: the result lists the casts of the fields, position
    by position. *)
Lemma cast_each_in_order_Ok (cast : Value -> Type_ -> StatusOr Value)
    (pairs : list (Value * Type_)) (casted : list Value) :
  cast_each_in_order cast pairs = Ok casted <->
  Forall2 (fun p c => cast (fst p) (snd p) = Ok c) pairs casted.
Proof.
  revert casted. induction pairs as [|[field to_type] rest IH];
    intros casted; cbn [cast_each_in_order].
  - split.
    + intros [= <-]. constructor.
    + intros H. inversion H. reflexivity.
  - split.
    + destruct (cast field to_type) eqn:Hc; try discriminate.
      destruct (cast_each_in_order cast rest) eqn:Hr; try discriminate.
      intros [= <-]. constructor; [exact Hc | by apply IH].
    + intros H. inversion H as [|p c ps cs Hc Hrest]; subst.
      cbn [fst snd] in Hc. rewrite Hc.
      apply IH in Hrest. rewrite Hrest. reflexivity.
Qed.

(** The first field that fails decides the result. *)
Lemma cast_each_in_order_first_failure
    (cast : Value -> Type_ -> StatusOr Value)
    (before after : list (Value * Type_)) (field : Value) (to_type : Type_)
    (status : Status) :
  Forall (fun p => exists c, cast (fst p) (snd p) = Ok c) before ->
  cast field to_type = Failed status ->
  cast_each_in_order cast (before ++ (field, to_type) :: after)
  = Failed status.
Proof.
  intros Hb Hf. induction Hb as [|[f t] before [c Hc] _ IH];
    cbn [app cast_each_in_order].
  - rewrite Hf. reflexivity.
  - cbn [fst snd] in Hc. rewrite Hc.
    rewrite IH. reflexivity.
Qed.

Section StructCast.

Variable lib : Library.
Variable ctx : CastContext.

(** C6: a non-NULL struct value cast to a struct type with another number
    of fields is the static error "Unsupported cast", whatever its field
    values; with the same number of fields (and a different type), the
    fields are cast one by one in field order to the target's field
    types, and the result is the struct of the casted fields. *)
Theorem CastValue_struct_to_struct
    (v_fields to_fields : list StructField) (fields : list Value) :
  (length v_fields <> length to_fields ->
   CastContext_CastValue lib ctx (VStruct v_fields fields)
     (StructType to_fields)
   = MakeSqlError
       ("Unsupported cast from " +:+ DebugString lib (StructType v_fields)
        +:+ " to " +:+ DebugString lib (StructType to_fields)))
  /\ (length v_fields = length to_fields ->
      length fields = length v_fields ->
      v_fields <> to_fields ->
      CastContext_CastValue lib ctx (VStruct v_fields fields)
        (StructType to_fields)
      = (casted ← cast_each_in_order (CastContext_CastValue lib ctx)
                    (zip fields (snd <$> to_fields));
         Ok (VStruct to_fields casted))).
Proof.
  assert (Hswitch : StructType v_fields <> StructType to_fields ->
    CastContext_CastValue lib ctx (VStruct v_fields fields)
      (StructType to_fields)
    = CastSwitch lib (UnimplementedCast lib) ctx
        (fun to_fields =>
           CastFieldsLoop
             (CastContext_CastValue_with lib (UnimplementedCast lib) ctx)
             fields to_fields)
        (fun _ => Aborted)
        (VStruct v_fields fields) (StructType v_fields)
        (StructType to_fields)).
  { intros Hne.
    assert (He : Equals (StructType v_fields) (StructType to_fields) = false).
    { destruct (Equals _ _) eqn:E; [| reflexivity].
      apply Equals_eq in E. contradiction. }
    unfold CastContext_CastValue.
    rewrite (CastValue_reaches_switch lib ctx _ (VStruct v_fields fields)
               (StructType v_fields) (StructType to_fields)
               eq_refl eq_refl He eq_refl eq_refl
               (IsMapEntryCast_to_proto (StructType v_fields)
                  (StructType to_fields) eq_refl) eq_refl).
    reflexivity. }
  split.
  - intros Hlen. rewrite Hswitch by congruence.
    unfold CastSwitch; cbn [kind AsStruct checked mbind StatusOr_bind].
    rewrite bool_decide_eq_false_2 by exact Hlen. reflexivity.
  - intros Hlen Hfields Hne. rewrite Hswitch by congruence.
    unfold CastSwitch; cbn [kind AsStruct checked mbind StatusOr_bind].
    rewrite bool_decide_eq_true_2 by exact Hlen. cbn [negb].
    rewrite CastFieldsLoop_in_order by congruence. reflexivity.
Qed.

End StructCast.

Lemma CastValue_struct_to_struct_witness :
  let two := [("a", SimpleType TYPE_INT32); ("b", SimpleType TYPE_INT64)] in
  let three := [("x", SimpleType TYPE_INT64); ("y", SimpleType TYPE_INT64);
                ("z", SimpleType TYPE_INT64)] in
  let swapped := [("x", SimpleType TYPE_INT64); ("y", SimpleType TYPE_INT32)] in
  (length two <> length three
   /\ CastContext_CastValue sample_library sample_context
        (VStruct two [VInt32 1; VInt64 300]) (StructType three)
      = MakeSqlError "Unsupported cast from STRUCT/2 to STRUCT/3")
  /\ (length two = length swapped
      /\ length [VInt32 1; VInt64 300] = length two
      /\ two <> swapped
      /\ CastContext_CastValue sample_library sample_context
           (VStruct two [VInt32 1; VInt64 300]) (StructType swapped)
         = Ok (VStruct swapped [VInt64 1; VInt32 300])).
Proof.
  intros two three swapped.
  assert (H1 : length two <> length three) by discriminate.
  assert (H2 : length two = length swapped) by reflexivity.
  assert (H3 : length [VInt32 1; VInt64 300] = length two) by reflexivity.
  assert (H4 : two <> swapped) by discriminate.
  split.
  - split; [exact H1 |].
    rewrite (proj1 (CastValue_struct_to_struct sample_library sample_context
                      two three [VInt32 1; VInt64 300]) H1).
    reflexivity.
  - split; [exact H2 |]. split; [exact H3 |]. split; [exact H4 |].
    rewrite (proj2 (CastValue_struct_to_struct sample_library sample_context
                      two swapped [VInt32 1; VInt64 300]) H2 H3 H4).
    vm_compute. reflexivity.
Defined.

(** ** The switch covers the table *)

Section Coverage.

Variable lib : Library.

Lemma CastFieldsLoop_congr (cast cast' : Value -> Type_ -> StatusOr Value)
    (fields : list Value) (to_fields : list StructField) :
  Forall (fun field => forall t, cast field t = cast' field t) fields ->
  CastFieldsLoop cast fields to_fields = CastFieldsLoop cast' fields to_fields.
Proof.
  intros H. revert to_fields.
  induction H as [|field rest Hf _ IH]; intros [|to_field to_rest];
    try reflexivity.
  cbn [CastFieldsLoop]. rewrite Hf.
  fold (CastFieldsLoop cast rest to_rest).
  fold (CastFieldsLoop cast' rest to_rest).
  rewrite IH. reflexivity.
Qed.

Lemma CastElementsLoop_congr (cast cast' : Value -> Type_ -> StatusOr Value)
    (to_element_type : Type_) (elements : list Value) :
  Forall (fun element => forall t, cast element t = cast' element t) elements ->
  CastElementsLoop cast to_element_type elements
  = CastElementsLoop cast' to_element_type elements.
Proof.
  induction 1 as [|element rest He _ IH]; [reflexivity |].
  cbn [CastElementsLoop]. rewrite He.
  fold (CastElementsLoop cast to_element_type rest).
  fold (CastElementsLoop cast' to_element_type rest).
  rewrite IH. reflexivity.
Qed.

Lemma CastFieldAt_congr (cast cast' : Value -> Type_ -> StatusOr Value)
    (fields : list Value) (i : nat) (t : Type_) :
  Forall (fun field => forall t, cast field t = cast' field t) fields ->
  CastFieldAt cast fields i t = CastFieldAt cast' fields i t.
Proof.
  intros H. unfold CastFieldAt.
  destruct H as [|f0 rest H0 Hrest]; [reflexivity |].
  destruct i as [|[|i]]; [apply H0 | | reflexivity].
  destruct Hrest as [|f1 rest' H1 _]; [reflexivity | apply H1].
Qed.

Lemma DoMapEntryCast_congr (CastField CastField' : nat -> Type_ -> StatusOr Value)
    (from_type to_type : Type_) :
  (forall i t, CastField i t = CastField' i t) ->
  DoMapEntryCast lib CastField from_type to_type
  = DoMapEntryCast lib CastField' from_type to_type.
Proof.
  intros H. unfold DoMapEntryCast.
  destruct (negb (IsMapEntryCast from_type to_type)); [reflexivity |].
  destruct (checked (AsProto to_type)) as [p| |]; try reflexivity.
  cbn [mbind StatusOr_bind].
  destruct (GetFieldTypeByTagNumber lib p (map_key_number p)); try reflexivity.
  cbn [mbind StatusOr_bind].
  destruct (GetFieldTypeByTagNumber lib p (map_value_number p));
    try reflexivity.
  cbn [mbind StatusOr_bind]. rewrite !H. reflexivity.
Qed.

(** The closures of the loops may be replaced by equal ones. *)
Lemma CastSwitch_congr default_case ctx
    (CastFields CastFields' : list StructField -> StatusOr (list Value))
    (CastElements CastElements' : Type_ -> StatusOr (list Value))
    (v : Value) (v_type T : Type_) :
  (forall x, CastFields x = CastFields' x) ->
  (forall x, CastElements x = CastElements' x) ->
  CastSwitch lib default_case ctx CastFields CastElements v v_type T
  = CastSwitch lib default_case ctx CastFields' CastElements' v v_type T.
Proof.
  intros HF HE. unfold CastSwitch.
  destruct (kind v_type), (kind T); try reflexivity.
  - destruct (ValidateCoercion ctx v T); try reflexivity.
    cbn [mbind StatusOr_bind].
    destruct (checked (AsArray T)); try reflexivity.
    cbn [mbind StatusOr_bind]. rewrite HE. reflexivity.
  - destruct (checked (AsStruct v_type)); try reflexivity.
    cbn [mbind StatusOr_bind].
    destruct (checked (AsStruct T)); try reflexivity.
    cbn [mbind StatusOr_bind].
    destruct (negb _); [reflexivity |]. rewrite HF. reflexivity.
Qed.

(** Every kind pair of the table has its case in the switch, but for the
    pairs of one simple kind with itself; those are pairs of equal types,
    which the switch never sees.  So the [default:] label is dead for the
    pairs of the table. *)
Lemma CastSwitch_default_dead default_case default_case' ctx
    (CastFields : list StructField -> StatusOr (list Value))
    (CastElements : Type_ -> StatusOr (list Value))
    (v : Value) (v_type T : Type_) :
  Equals v_type T = false ->
  declared_cast (kind v_type) (kind T) = true ->
  CastSwitch lib default_case ctx CastFields CastElements v v_type T
  = CastSwitch lib default_case' ctx CastFields CastElements v v_type T.
Proof.
  intros He Hc. unfold CastSwitch.
  destruct (kind v_type) eqn:Ev, (kind T) eqn:Et; try reflexivity;
    try (vm_compute in Hc; discriminate Hc);
    exfalso;
    (assert (Heq : v_type = T)
       by (apply simple_kind_eq; [rewrite Ev; reflexivity | congruence]));
    subst T; rewrite Equals_refl in He; discriminate He.
Qed.

Lemma CastValue_body_default_dead default_case default_case' ctx
    (CastField CastField' : nat -> Type_ -> StatusOr Value)
    (CastFields CastFields' : list StructField -> StatusOr (list Value))
    (CastElements CastElements' : Type_ -> StatusOr (list Value))
    (v : Value) (T : Type_) :
  (forall i t, CastField i t = CastField' i t) ->
  (forall x, CastFields x = CastFields' x) ->
  (forall x, CastElements x = CastElements' x) ->
  CastValue_body lib default_case ctx CastField CastFields CastElements v T
  = CastValue_body lib default_case' ctx CastField' CastFields' CastElements'
      v T.
Proof.
  intros Hf HF HE. unfold CastValue_body.
  destruct (Value_type v) as [v_type|]; [| reflexivity].
  destruct (Equals v_type T) eqn:He; [reflexivity |].
  destruct (IsExtendedType v_type || IsExtendedType T); [reflexivity |].
  destruct (_ && IsMapEntryCast v_type T).
  { apply DoMapEntryCast_congr. exact Hf. }
  rewrite ContainsCast_declared.
  destruct (declared_cast (kind v_type) (kind T)) eqn:Hc; [| reflexivity].
  cbn [negb]. destruct (is_null v); [reflexivity |].
  rewrite (CastSwitch_congr default_case ctx CastFields CastFields'
             CastElements CastElements' v v_type T HF HE).
  apply CastSwitch_default_dead; assumption.
Qed.

(** Whatever the [default:] label of the switch returns, [CastValue]
    returns the same: no cast, at any depth of a struct or array, reaches
    that label. *)
Lemma CastValue_default_dead default_case default_case' (v : Value) :
  forall ctx T,
    CastContext_CastValue_with lib default_case ctx v T
    = CastContext_CastValue_with lib default_case' ctx v T.
Proof.
  revert v.
  apply (Value_nested_ind
           (fun v => forall ctx T,
              CastContext_CastValue_with lib default_case ctx v T
              = CastContext_CastValue_with lib default_case' ctx v T));
    [intros e o elements IH | intros fs fields IH | intros v].
  - intros ctx T. rewrite !CastContext_CastValue_with_unfold.
    apply CastValue_body_default_dead; try reflexivity.
    intros t. apply CastElementsLoop_congr.
    eapply Forall_impl; [exact IH |]. intros x Hx t'. apply Hx.
  - intros ctx T. rewrite !CastContext_CastValue_with_unfold.
    apply CastValue_body_default_dead.
    + intros i t. apply CastFieldAt_congr.
      eapply Forall_impl; [exact IH |]. intros x Hx t'. apply Hx.
    + intros t. apply CastFieldsLoop_congr.
      eapply Forall_impl; [exact IH |]. intros x Hx t'. apply Hx.
    + reflexivity.
  - destruct v; try exact I; intros ctx T;
      rewrite !CastContext_CastValue_with_unfold;
      apply CastValue_body_default_dead; reflexivity.
Qed.

(** C3: for a kind pair of the table, a non-NULL value of a type of the
    first kind that is not extended, and a target type of the second kind
    that is not equal to the type of the value, the result of [CastValue]
    does not come from the [default:] label of the switch: it is the same
    whatever that label returns, the Unimplemented error or anything
    else. *)
Theorem dispatcher_covers_cast_table
    (default_case : Type_ -> Type_ -> StatusOr Value)
    (ctx : CastContext) (v : Value) (v_type T : Type_) :
  Value_type v = Some v_type ->
  is_null v = false ->
  IsExtendedType v_type = false ->
  Equals v_type T = false ->
  ContainsCast (GetTypeCoercionCost lib) (kind v_type) (kind T) = true ->
  CastContext_CastValue_with lib default_case ctx v T
  = CastContext_CastValue lib ctx v T.
Proof.
  intros _ _ _ _ _. apply CastValue_default_dead.
Qed.

End Coverage.

Lemma dispatcher_covers_cast_table_witness :
  Value_type (VInt32 7) = Some (SimpleType TYPE_INT32)
  /\ is_null (VInt32 7) = false
  /\ IsExtendedType (SimpleType TYPE_INT32) = false
  /\ Equals (SimpleType TYPE_INT32) (SimpleType TYPE_INT64) = false
  /\ ContainsCast (GetTypeCoercionCost sample_library)
       TYPE_INT32 TYPE_INT64 = true
  /\ CastContext_CastValue_with sample_library (fun _ _ => Aborted)
       sample_context (VInt32 7) (SimpleType TYPE_INT64)
     = CastContext_CastValue sample_library sample_context
         (VInt32 7) (SimpleType TYPE_INT64).
Proof.
  assert (Hc : ContainsCast (GetTypeCoercionCost sample_library)
                 TYPE_INT32 TYPE_INT64 = true) by (vm_compute; reflexivity).
  split; [reflexivity |]. split; [reflexivity |]. split; [reflexivity |].
  split; [reflexivity |]. split; [exact Hc |].
  apply (dispatcher_covers_cast_table sample_library (fun _ _ => Aborted)
           sample_context (VInt32 7) (SimpleType TYPE_INT32)
           (SimpleType TYPE_INT64) eq_refl eq_refl eq_refl eq_refl Hc).
Defined.


(** * Further properties of the cast code *)

(** ** The table and its rows *)

Lemma FCT_injective_witness :
  (forall k, 0 <= Z.of_nat (TypeKind_index k) < 2 ^ 32)
  /\ (forall k k', Z.of_nat (TypeKind_index k) = Z.of_nat (TypeKind_index k')
                   -> k = k')
  /\ FCT (fun k => Z.of_nat (TypeKind_index k)) TYPE_INT32 TYPE_INT64
     = FCT (fun k => Z.of_nat (TypeKind_index k)) TYPE_INT32 TYPE_INT64
  /\ TYPE_INT32 = TYPE_INT32 /\ TYPE_INT64 = TYPE_INT64.
Proof.
  assert (Hr : forall k, 0 <= Z.of_nat (TypeKind_index k) < 2 ^ 32)
    by (intros []; vm_compute; split; congruence).
  assert (Hi : forall k k',
             Z.of_nat (TypeKind_index k) = Z.of_nat (TypeKind_index k')
             -> k = k')
    by (intros [] []; vm_compute; congruence).
  split; [exact Hr |]. split; [exact Hi |]. split; [reflexivity |].
  exact (FCT_injective (fun k => Z.of_nat (TypeKind_index k))
           TYPE_INT32 TYPE_INT64 TYPE_INT32 TYPE_INT64 Hr Hi eq_refl).
Defined.


(** ** Casts that the table does not allow *)

Section Unsupported.

Variable lib : Library.
Variable ctx : CastContext.

(** Before the table: a valid value of a type that differs from the
    target, with neither type extended and no map-entry cast taken, is
    first checked against the table. *)
Lemma CastValue_reaches_table default_case (v : Value) (v_type T : Type_) :
  Value_type v = Some v_type ->
  Equals v_type T = false ->
  IsExtendedType v_type = false ->
  IsExtendedType T = false ->
  LanguageFeatureEnabled (language_options ctx) FEATURE_V_1_3_PROTO_MAPS
  && IsMapEntryCast v_type T = false ->
  declared_cast (kind v_type) (kind T) = false ->
  CastContext_CastValue_with lib default_case ctx v T
  = UnsupportedCast lib v_type T.
Proof.
  intros Hv He HS HT Hm Hc.
  rewrite CastContext_CastValue_with_unfold. unfold CastValue_body.
  rewrite Hv, He, HS, HT, Hm. cbn [orb].
  rewrite ContainsCast_declared, Hc. reflexivity.
Qed.

(** A kind pair that is not in the table is a static error, for every
    value of the source type, NULL or not: no payload is looked at. *)
Theorem CastValue_unsupported_pair (v : Value) (v_type T : Type_) :
  Value_type v = Some v_type ->
  IsExtendedType v_type = false ->
  IsExtendedType T = false ->
  LanguageFeatureEnabled (language_options ctx) FEATURE_V_1_3_PROTO_MAPS
  && IsMapEntryCast v_type T = false ->
  ContainsCast (GetTypeCoercionCost lib) (kind v_type) (kind T) = false ->
  CastContext_CastValue lib ctx v T
  = MakeSqlError ("Unsupported cast from " +:+ DebugString lib v_type
                  +:+ " to " +:+ DebugString lib T).
Proof.
  intros Hv HS HT Hm Hc. rewrite ContainsCast_declared in Hc.
  apply CastValue_reaches_table; try assumption.
  destruct (Equals v_type T) eqn:He; [| reflexivity].
  apply Equals_eq in He. subst T.
  unfold IsExtendedType in HS. revert Hc HS.
  destruct (kind v_type); vm_compute; intros; discriminate.
Qed.

(** Without the proto-map feature a struct never casts to a proto, be
    the proto a map entry or not. *)
Theorem CastValue_struct_to_proto_feature_off
    (v : Value) (fs : list StructField) (d : Descriptor) :
  Value_type v = Some (StructType fs) ->
  LanguageFeatureEnabled (language_options ctx) FEATURE_V_1_3_PROTO_MAPS
  = false ->
  CastContext_CastValue lib ctx v (ProtoType d)
  = MakeSqlError ("Unsupported cast from " +:+ DebugString lib (StructType fs)
                  +:+ " to " +:+ DebugString lib (ProtoType d)).
Proof.
  intros Hv Hf.
  apply CastValue_reaches_table; try reflexivity; try assumption.
  rewrite Hf. reflexivity.
Qed.

End Unsupported.

Lemma CastValue_unsupported_pair_witness :
  let v := VArray (SimpleType TYPE_INT64) kPreservesOrder [VInt64 1] in
  Value_type v = Some (ArrayType (SimpleType TYPE_INT64))
  /\ IsExtendedType (ArrayType (SimpleType TYPE_INT64)) = false
  /\ IsExtendedType (SimpleType TYPE_STRING) = false
  /\ LanguageFeatureEnabled (language_options sample_context)
       FEATURE_V_1_3_PROTO_MAPS
     && IsMapEntryCast (ArrayType (SimpleType TYPE_INT64))
          (SimpleType TYPE_STRING) = false
  /\ ContainsCast (GetTypeCoercionCost sample_library) TYPE_ARRAY TYPE_STRING
     = false
  /\ CastContext_CastValue sample_library sample_context v
       (SimpleType TYPE_STRING)
     = MakeSqlError "Unsupported cast from ARRAY to SIMPLE#7".
Proof.
  intros v.
  assert (Hc : ContainsCast (GetTypeCoercionCost sample_library)
                 TYPE_ARRAY TYPE_STRING = false) by (vm_compute; reflexivity).
  split; [reflexivity |]. split; [reflexivity |]. split; [reflexivity |].
  split; [reflexivity |]. split; [exact Hc |].
  exact (CastValue_unsupported_pair sample_library sample_context v
           (ArrayType (SimpleType TYPE_INT64)) (SimpleType TYPE_STRING)
           eq_refl eq_refl eq_refl eq_refl Hc).
Defined.

Definition entry_descriptor : Descriptor :=
  mkDescriptor "test.Entry" true 1 2.

Definition plain_options : LanguageOptions :=
  mkLanguageOptions (fun _ => false) PRODUCT_INTERNAL.

Lemma CastValue_struct_to_proto_feature_off_witness :
  let fs := [("key", SimpleType TYPE_STRING); ("value", SimpleType TYPE_INT64)] in
  let v := VStruct fs [VString "a"; VInt64 1] in
  let ctx := CastContextWithValidation sample_library "UTC" plain_options None in
  Value_type v = Some (StructType fs)
  /\ LanguageFeatureEnabled (language_options ctx) FEATURE_V_1_3_PROTO_MAPS
     = false
  /\ CastContext_CastValue sample_library ctx v (ProtoType entry_descriptor)
     = MakeSqlError "Unsupported cast from STRUCT/2 to PROTO<test.Entry>".
Proof.
  intros fs v ctx.
  split; [reflexivity |]. split; [reflexivity |].
  exact (CastValue_struct_to_proto_feature_off sample_library ctx v fs
           entry_descriptor eq_refl eq_refl).
Defined.

(** ** Casts of extended types *)

Section Extended.

Variable lib : Library.

Lemma CastValue_reaches_extended default_case ctx
    (v : Value) (v_type T : Type_) :
  Value_type v = Some v_type ->
  Equals v_type T = false ->
  IsExtendedType v_type || IsExtendedType T = true ->
  CastContext_CastValue_with lib default_case ctx v T
  = CastWithExtendedType ctx v T.
Proof.
  intros Hv He Hx.
  rewrite CastContext_CastValue_with_unfold. unfold CastValue_body.
  rewrite Hv, He, Hx. reflexivity.
Qed.

(** A cast from or to an extended type needs its collaborator: the
    public [CastValue] without catalog, and the unvalidated cast without
    conversion function, fail with [FailedPrecondition], whatever the
    value and the other type. *)
Theorem CastValue_extended_needs_collaborator
    (v : Value) (v_type T : Type_)
    (default_timezone : TimeZone) (language_options : LanguageOptions) :
  Value_type v = Some v_type ->
  Equals v_type T = false ->
  IsExtendedType v_type || IsExtendedType T = true ->
  CastValue lib v default_timezone language_options T None
  = FailedPreconditionErrorBuilder
      "Attempt to cast a Value of extened type without providing a Catalog"
  /\ CastValueWithoutTypeValidation lib v default_timezone language_options
       T None
     = FailedPreconditionErrorBuilder
         "Attempt to cast a Value of extened type without providing an extended conversion function".
Proof.
  intros Hv He Hx. unfold CastValue, CastValueWithoutTypeValidation,
    CastContext_CastValue.
  rewrite !(CastValue_reaches_extended _ _ v v_type T Hv He Hx).
  split; reflexivity.
Qed.

(** With a conversion function, the unvalidated cast of an extended
    type is the function's evaluator for the signature [(v_type) -> T],
    run on the value: the checks of [ConversionEvaluator::Create] and
    [ConversionEvaluator::Eval] cannot fail on this path. *)
Theorem CastValueWithoutTypeValidation_runs_function
    (v : Value) (v_type T : Type_) (function : Function)
    (default_timezone : TimeZone) (language_options : LanguageOptions) :
  Value_type v = Some v_type ->
  Equals v_type T = false ->
  IsExtendedType v_type || IsExtendedType T = true ->
  CastValueWithoutTypeValidation lib v default_timezone language_options
    T (Some function)
  = (evaluator ← GetFunctionEvaluatorFactory function
                   (mkFunctionSignature T v_type);
     evaluator [v]).
Proof.
  intros Hv He Hx. unfold CastValueWithoutTypeValidation,
    CastContext_CastValue.
  rewrite (CastValue_reaches_extended _ _ v v_type T Hv He Hx).
  cbn [CastWithExtendedType CastContextWithoutValidation].
  rewrite Hv. cbn [checked mbind StatusOr_bind].
  unfold ConversionEvaluator_Create. rewrite He.
  cbn [mbind StatusOr_bind ConversionEvaluator_Eval].
  rewrite Hv. cbn [checked mbind StatusOr_bind].
  rewrite Equals_refl. reflexivity.
Qed.

End Extended.

Definition money : Value := VExtended "acme.Money" "12.50".

(** A conversion function that turns any value into the string "money". *)
Definition money_to_string : Function :=
  mkFunction (fun _ => Ok (fun _ => Ok (VString "money"))).

Lemma CastValue_extended_needs_collaborator_witness :
  Value_type money = Some (ExtendedType "acme.Money")
  /\ Equals (ExtendedType "acme.Money") (SimpleType TYPE_STRING) = false
  /\ IsExtendedType (ExtendedType "acme.Money")
     || IsExtendedType (SimpleType TYPE_STRING) = true
  /\ CastValue sample_library money "UTC" sample_options
       (SimpleType TYPE_STRING) None
     = FailedPreconditionErrorBuilder
         "Attempt to cast a Value of extened type without providing a Catalog".
Proof.
  split; [reflexivity |]. split; [reflexivity |]. split; [reflexivity |].
  exact (proj1 (CastValue_extended_needs_collaborator sample_library money
                  (ExtendedType "acme.Money") (SimpleType TYPE_STRING)
                  "UTC" sample_options eq_refl eq_refl eq_refl)).
Defined.

Lemma CastValueWithoutTypeValidation_runs_function_witness :
  Value_type money = Some (ExtendedType "acme.Money")
  /\ Equals (ExtendedType "acme.Money") (SimpleType TYPE_STRING) = false
  /\ IsExtendedType (ExtendedType "acme.Money")
     || IsExtendedType (SimpleType TYPE_STRING) = true
  /\ CastValueWithoutTypeValidation sample_library money "UTC" sample_options
       (SimpleType TYPE_STRING) (Some money_to_string)
     = Ok (VString "money").
Proof.
  split; [reflexivity |]. split; [reflexivity |]. split; [reflexivity |].
  rewrite (CastValueWithoutTypeValidation_runs_function sample_library money
             (ExtendedType "acme.Money") (SimpleType TYPE_STRING)
             money_to_string "UTC" sample_options eq_refl eq_refl eq_refl).
  reflexivity.
Defined.

(** ** Conversions *)

(** [Conversion::Create(from_type, to_type, function, property)]: the
    evaluator is created first, then the conversion. *)
Definition Conversion_Create_from_types (from_type to_type : option Type_)
    (function : option Function) (property : CastFunctionProperty)
    : StatusOr Conversion :=
  evaluator ← ConversionEvaluator_Create from_type to_type function;
  Conversion_Create evaluator property.

(** A conversion is created exactly when none of the two types and the
    function is null and the two types differ; it is then valid and holds
    what it was given.  In every other case the result is the error of a
    failed [ZETASQL_RET_CHECK]: of the first of the four checks of
    [ConversionEvaluator::Create] that fails, the check of
    [Conversion::Create] never failing. *)
Theorem Conversion_Create_from_types_spec (from_type to_type : option Type_)
    (function : option Function) (property : CastFunctionProperty) :
  match Conversion_Create_from_types from_type to_type function property with
  | Ok c =>
      exists from to f,
        from_type = Some from /\ to_type = Some to /\ function = Some f
        /\ from <> to
        /\ c = mkConversion (Evaluator from to f) property
        /\ Conversion_is_valid c = true
  | Failed status =>
      error_kind status = InternalError
      /\ ((from_type = None /\ error_message status = "from_type")
          \/ (from_type <> None /\ to_type = None
              /\ error_message status = "to_type")
          \/ (from_type <> None /\ to_type <> None /\ function = None
              /\ error_message status = "function")
          \/ (function <> None
              /\ (exists t, from_type = Some t /\ to_type = Some t)
              /\ error_message status = "!from_type->Equals(to_type)"))
  | Aborted => False
  end.
Proof.
  unfold Conversion_Create_from_types, ConversionEvaluator_Create.
  destruct from_type as [from|];
    [| split; [reflexivity | left; split; reflexivity]].
  destruct to_type as [to|];
    [| split; [reflexivity | right; left; repeat split; discriminate]].
  destruct function as [f|];
    [| split; [reflexivity
              | right; right; left; repeat split; discriminate]].
  destruct (Equals from to) eqn:He.
  - apply Equals_eq in He. subst to. split; [reflexivity |].
    right; right; right. split; [discriminate |].
    split; [exists from; split; reflexivity | reflexivity].
  - exists from, to, f. repeat split.
    intros Heq. apply Equals_eq in Heq. congruence.
Qed.

(** [Conversion::IsMatch] answers as the coercion predicates do: an
    invalid conversion matches nothing; a valid one matches every
    explicit request, and an implicit request according to the kind of
    source expression: a literal when the class supports literal
    coercion, a parameter when it supports parameter coercion, any other
    expression when it supports implicit coercion. *)
Theorem Conversion_IsMatch_predicates (c : Conversion)
    (options : FindConversionOptions) :
  Conversion_IsMatch c options =
  Conversion_is_valid c
  && (if is_explicit options
      then SupportsExplicitCast (cast_type (property c))
      else match source_kind options with
           | kLiteral => SupportsLiteralCoercion (cast_type (property c))
           | kParameter => SupportsParameterCoercion (cast_type (property c))
           | kOther => SupportsImplicitCoercion (cast_type (property c))
           end).
Proof.
  unfold Conversion_IsMatch.
  destruct (Conversion_is_valid c); [| reflexivity].
  destruct (is_explicit options), (source_kind options),
    (cast_type (property c)); reflexivity.
Qed.

Section Unvalidated.

Variable lib : Library.


End Unvalidated.


(** ** The type of a casted value *)

Lemma kind_simple_inv (T : Type_) (k : TypeKind) :
  kind T = k -> IsSimpleKind k = true -> T = SimpleType k.
Proof. destruct T; simpl; intros <-; try discriminate; reflexivity. Qed.

(** One step of the case analysis of a cast that returned [Ok]. *)
Ltac cast_step H :=
  match type of H with
  | Ok _ = Ok _ => injection H as <-
  | Failed _ = Ok _ => discriminate H
  | Aborted = Ok _ => discriminate H
  | context [match ?x with _ => _ end] =>
      let E := fresh "E" in destruct x eqn:E; simpl in H
  end.

Ltac close_type :=
  match goal with
  | |- Value_type _ = Some ?T =>
      destruct T; simpl in *; try discriminate; congruence
  end.

Section ResultType.

Variable lib : Library.

Lemma CastSwitch_result_type ctx
    (CastFields : list StructField -> StatusOr (list Value))
    (CastElements : Type_ -> StatusOr (list Value))
    (v w : Value) (v_type T : Type_) :
  (forall t o l r, ArrayChecked lib t o l = Ok r -> Value_type r = Some t) ->
  CastSwitch lib (UnimplementedCast lib) ctx CastFields CastElements
    v v_type T = Ok w ->
  Value_type w = Some T.
Proof.
  intros Harr H. unfold CastSwitch in H.
  destruct (kind v_type) eqn:Ev, (kind T) eqn:Et;
    try discriminate H;
    unfold NumericCast, NumericValueCast, NumericToString, StringToNumeric,
      Value_Enum, Value_Enum_name, Value_NullString, Value_MakeNull,
      Value_TimestampFromUnixMicros, MakeEvalError, MakeSqlError,
      UnsupportedCast, mbind, StatusOr_bind in H;
    simpl in H;
    repeat cast_step H;
    try close_type;
    try (eapply Harr; eassumption);
    repeat match goal with
           | E : context [if ?c then _ else _] |- _ =>
               destruct c; simpl in E; try discriminate E
           | E : context [FindNumber ?d ?s] |- _ =>
               destruct (FindNumber d s); simpl in E; try discriminate E
           end;
    close_type.
Qed.

Lemma DoMapEntryCast_result_type
    (CastField : nat -> Type_ -> StatusOr Value) (from_type T : Type_)
    (w : Value) :
  DoMapEntryCast lib CastField from_type T = Ok w ->
  Value_type w = Some T.
Proof.
  unfold DoMapEntryCast, RetCheckFailure, mbind, StatusOr_bind.
  intros H. repeat cast_step H. close_type.
Qed.

(** The type of the result, for the whole of [CastValue]. *)
Lemma CastValue_result_type ctx (v w : Value) (v_type T : Type_) :
  (forall t o l r, ArrayChecked lib t o l = Ok r -> Value_type r = Some t) ->
  Value_type v = Some v_type ->
  IsExtendedType v_type = false ->
  IsExtendedType T = false ->
  CastContext_CastValue lib ctx v T = Ok w ->
  Value_type w = Some T.
Proof.
  intros Harr Hv HS HT. unfold CastContext_CastValue.
  rewrite CastContext_CastValue_with_unfold. unfold CastValue_body.
  rewrite Hv, HS, HT. cbn [orb].
  destruct (Equals v_type T) eqn:He.
  { intros [= <-]. apply Equals_eq in He. congruence. }
  destruct (_ && IsMapEntryCast v_type T).
  { apply DoMapEntryCast_result_type. }
  rewrite ContainsCast_declared.
  destruct (declared_cast (kind v_type) (kind T)); [| discriminate].
  cbn [negb]. destruct (is_null v).
  { destruct (negb (IsSimpleType v_type)
              && bool_decide (kind v_type = kind T));
      [destruct (ValidateCoercion ctx v T) |];
      cbn [mbind StatusOr_bind]; try discriminate;
      intros [= <-]; reflexivity. }
  apply CastSwitch_result_type. exact Harr.
Qed.

(** A successful cast between types that are not extended returns a
    value of the target type (given that [InternalValue::ArrayChecked]
    returns an array of the type it is given). *)
Theorem CastValue_returns_target_type ctx (v w : Value) (v_type T : Type_) :
  (forall t o l r, ArrayChecked lib t o l = Ok r -> Value_type r = Some t) ->
  Value_type v = Some v_type ->
  IsExtendedType v_type = false ->
  IsExtendedType T = false ->
  CastContext_CastValue lib ctx v T = Ok w ->
  Value_type w = Some T.
Proof. exact (CastValue_result_type ctx v w v_type T). Qed.

(** Casting is idempotent: the result of a successful cast to [T], cast
    to [T] again in any context, is returned unchanged. *)
Theorem CastValue_idempotent ctx ctx' (v w : Value) (v_type T : Type_) :
  (forall t o l r, ArrayChecked lib t o l = Ok r -> Value_type r = Some t) ->
  Value_type v = Some v_type ->
  IsExtendedType v_type = false ->
  IsExtendedType T = false ->
  CastContext_CastValue lib ctx v T = Ok w ->
  CastContext_CastValue lib ctx' w T = Ok w.
Proof.
  intros Harr Hv HS HT Hc.
  pose proof (CastValue_result_type ctx v w v_type T Harr Hv HS HT Hc) as Hw.
  unfold CastContext_CastValue.
  rewrite CastContext_CastValue_with_unfold. unfold CastValue_body.
  rewrite Hw, Equals_refl. reflexivity.
Qed.

End ResultType.

Lemma sample_ArrayChecked_typed :
  forall t o l r,
    ArrayChecked sample_library t o l = Ok r -> Value_type r = Some t.
Proof.
  intros t o l r. simpl. destruct t; try discriminate.
  intros [= <-]. reflexivity.
Qed.

Lemma CastValue_returns_target_type_witness :
  let v := VArray (SimpleType TYPE_INT32) kPreservesOrder
             [VInt32 1; VNull (SimpleType TYPE_INT32)] in
  let T := ArrayType (SimpleType TYPE_INT64) in
  let w := VArray (SimpleType TYPE_INT64) kPreservesOrder
             [VInt64 1; VNull (SimpleType TYPE_INT64)] in
  Value_type v = Some (ArrayType (SimpleType TYPE_INT32))
  /\ IsExtendedType (ArrayType (SimpleType TYPE_INT32)) = false
  /\ IsExtendedType T = false
  /\ CastContext_CastValue sample_library sample_context v T = Ok w
  /\ Value_type w = Some T.
Proof.
  intros v T w.
  assert (Hc : CastContext_CastValue sample_library sample_context v T = Ok w)
    by (vm_compute; reflexivity).
  split; [reflexivity |]. split; [reflexivity |]. split; [reflexivity |].
  split; [exact Hc |].
  exact (CastValue_returns_target_type sample_library sample_context v w
           (ArrayType (SimpleType TYPE_INT32)) T
           sample_ArrayChecked_typed eq_refl eq_refl eq_refl Hc).
Defined.

Lemma CastValue_idempotent_witness :
  let v := VStruct [("a", SimpleType TYPE_INT32)] [VInt32 5] in
  let T := StructType [("x", SimpleType TYPE_INT64)] in
  let w := VStruct [("x", SimpleType TYPE_INT64)] [VInt64 5] in
  Value_type v = Some (StructType [("a", SimpleType TYPE_INT32)])
  /\ IsExtendedType (StructType [("a", SimpleType TYPE_INT32)]) = false
  /\ IsExtendedType T = false
  /\ CastContext_CastValue sample_library sample_context v T = Ok w
  /\ CastContext_CastValue sample_library sample_context w T = Ok w.
Proof.
  intros v T w.
  assert (Hc : CastContext_CastValue sample_library sample_context v T = Ok w)
    by (vm_compute; reflexivity).
  split; [reflexivity |]. split; [reflexivity |]. split; [reflexivity |].
  split; [exact Hc |].
  exact (CastValue_idempotent sample_library sample_context sample_context
           v w (StructType [("a", SimpleType TYPE_INT32)]) T
           sample_ArrayChecked_typed eq_refl eq_refl eq_refl Hc).
Defined.

(** ** Array casts *)

(** What the array case does with one element: a NULL element becomes
    the NULL of the target element type without a cast, any other element
    is cast. *)
Definition cast_element (cast : Value -> Type_ -> StatusOr Value)
    (element : Value) (to_element_type : Type_) : StatusOr Value :=
  if is_null element then Ok (VNull to_element_type)
  else cast element to_element_type.

Lemma CastElementsLoop_in_order (cast : Value -> Type_ -> StatusOr Value)
    (to_element_type : Type_) (elements : list Value) :
  CastElementsLoop cast to_element_type elements =
  cast_each_in_order (cast_element cast)
    ((fun element => (element, to_element_type)) <$> elements).
Proof.
  induction elements as [|element rest IH]; [reflexivity |].
  cbn [CastElementsLoop fmap list_fmap cast_each_in_order].
  fold (CastElementsLoop cast to_element_type rest).
  unfold cast_element at 1.
  destruct (if is_null element then _ else _);
    cbn [mbind StatusOr_bind]; try reflexivity.
  rewrite IH.
  destruct (cast_each_in_order _ _); reflexivity.
Qed.

Lemma CastElementsLoop_nulls (cast : Value -> Type_ -> StatusOr Value)
    (to_element_type : Type_) (elements : list Value) :
  Forall (fun element => is_null element = true) elements ->
  CastElementsLoop cast to_element_type elements
  = Ok ((fun _ => VNull to_element_type) <$> elements).
Proof.
  induction 1 as [|element rest Hn _ IH]; [reflexivity |].
  cbn [CastElementsLoop fmap list_fmap].
  fold (CastElementsLoop cast to_element_type rest).
  rewrite Hn, IH. reflexivity.
Qed.

Section ArrayCast.

Variable lib : Library.
Variable ctx : CastContext.

Lemma CastValue_array_unfold (e e' : Type_) (o : OrderPreservationKind)
    (elements : list Value) :
  e <> e' ->
  CastContext_CastValue lib ctx (VArray e o elements) (ArrayType e') =
  (_ ← ValidateCoercion ctx (VArray e o elements) (ArrayType e');
   casted ← CastElementsLoop (CastContext_CastValue lib ctx) e' elements;
   ArrayChecked lib (ArrayType e') o casted).
Proof.
  intros Hne.
  assert (He : Equals (ArrayType e) (ArrayType e') = false).
  { destruct (Equals _ _) eqn:E; [| reflexivity].
    apply Equals_eq in E. congruence. }
  unfold CastContext_CastValue.
  rewrite (CastValue_reaches_switch lib ctx _ (VArray e o elements)
             (ArrayType e) (ArrayType e')
             eq_refl eq_refl He eq_refl eq_refl eq_refl eq_refl).
  reflexivity.
Qed.

(** An array value cast to another array type: the coercion is validated
    first and its error is the result; then the elements are cast in
    order, NULL elements passing through as NULLs of the target element
    type and the first failing element ending the cast; the casted
    elements, as many as there were, go to [ArrayChecked] with the order
    kind of the source. *)
Theorem CastValue_array_to_array (e e' : Type_) (o : OrderPreservationKind)
    (elements : list Value) :
  e <> e' ->
  CastContext_CastValue lib ctx (VArray e o elements) (ArrayType e') =
  (_ ← ValidateCoercion ctx (VArray e o elements) (ArrayType e');
   casted ← cast_each_in_order (cast_element (CastContext_CastValue lib ctx))
              ((fun element => (element, e')) <$> elements);
   ArrayChecked lib (ArrayType e') o casted).
Proof.
  intros Hne. rewrite (CastValue_array_unfold e e' o elements Hne).
  rewrite CastElementsLoop_in_order. reflexivity.
Qed.

(** An array of NULLs, the empty array among them, needs no element
    cast: once the coercion is validated, it becomes the array of as
    many NULLs of the target element type, whatever the types of its
    elements. *)
Theorem CastValue_array_of_nulls (e e' : Type_) (o : OrderPreservationKind)
    (elements : list Value) :
  e <> e' ->
  Forall (fun element => is_null element = true) elements ->
  ValidateCoercion ctx (VArray e o elements) (ArrayType e') = Ok tt ->
  CastContext_CastValue lib ctx (VArray e o elements) (ArrayType e') =
  ArrayChecked lib (ArrayType e') o ((fun _ => VNull e') <$> elements).
Proof.
  intros Hne Hn Hv. rewrite (CastValue_array_unfold e e' o elements Hne).
  rewrite Hv, (CastElementsLoop_nulls _ e' elements Hn). reflexivity.
Qed.

End ArrayCast.

Lemma CastValue_array_to_array_witness :
  let e := SimpleType TYPE_INT32 in
  let e' := SimpleType TYPE_INT64 in
  e <> e'
  /\ CastContext_CastValue sample_library sample_context
       (VArray e kIgnoresOrder [VInt32 1; VNull e; VInt32 3]) (ArrayType e')
     = Ok (VArray e' kIgnoresOrder [VInt64 1; VNull e'; VInt64 3]).
Proof.
  intros e e'. assert (Hne : e <> e') by discriminate.
  split; [exact Hne |].
  rewrite (CastValue_array_to_array sample_library sample_context e e'
             kIgnoresOrder [VInt32 1; VNull e; VInt32 3] Hne).
  vm_compute. reflexivity.
Defined.

Lemma CastValue_array_of_nulls_witness :
  let e := SimpleType TYPE_INT32 in
  let e' := SimpleType TYPE_INT64 in
  let elements := [VNull e; VNull (SimpleType TYPE_GEOGRAPHY)] in
  e <> e'
  /\ Forall (fun element => is_null element = true) elements
  /\ ValidateCoercion sample_context (VArray e kPreservesOrder elements)
       (ArrayType e') = Ok tt
  /\ CastContext_CastValue sample_library sample_context
       (VArray e kPreservesOrder elements) (ArrayType e')
     = Ok (VArray e' kPreservesOrder [VNull e'; VNull e']).
Proof.
  intros e e' elements.
  assert (Hne : e <> e') by discriminate.
  assert (Hn : Forall (fun element => is_null element = true) elements)
    by (repeat constructor).
  assert (Hv : ValidateCoercion sample_context
                 (VArray e kPreservesOrder elements) (ArrayType e') = Ok tt)
    by reflexivity.
  split; [exact Hne |]. split; [exact Hn |]. split; [exact Hv |].
  rewrite (CastValue_array_of_nulls sample_library sample_context e e'
             kPreservesOrder elements Hne Hn Hv).
  reflexivity.
Defined.

(** ** Structs that only differ in field names *)

Section StructRelabel.

Variable lib : Library.
Variable ctx : CastContext.

Lemma CastValue_same_type default_case (v : Value) (T : Type_) :
  Value_type v = Some T ->
  CastContext_CastValue_with lib default_case ctx v T = Ok v.
Proof.
  intros Hv.
  rewrite CastContext_CastValue_with_unfold. unfold CastValue_body.
  rewrite Hv, Equals_refl. reflexivity.
Qed.

Lemma CastFieldsLoop_unchanged (cast : Value -> Type_ -> StatusOr Value)
    (fields : list Value) (to_fields : list StructField) :
  Forall2 (fun field to_field => cast field (snd to_field) = Ok field)
    fields to_fields ->
  CastFieldsLoop cast fields to_fields = Ok fields.
Proof.
  induction 1 as [|f tf fs tfs Hc _ IH]; [reflexivity |].
  simpl. rewrite Hc. simpl.
  change (CastFieldsLoop cast fs tfs ≫= (fun casted_rest => Ok (f :: casted_rest))
          = Ok (f :: fs)).
  rewrite IH. reflexivity.
Qed.

(** A struct value whose fields already have the field types of the
    target keeps its fields: the cast only puts the target's struct type,
    with its field names, on them. *)
Theorem CastValue_struct_relabel
    (v_fields to_fields : list StructField) (fields : list Value) :
  v_fields <> to_fields ->
  length v_fields = length to_fields ->
  Forall2 (fun field to_field => Value_type field = Some (snd to_field))
    fields to_fields ->
  CastContext_CastValue lib ctx (VStruct v_fields fields)
    (StructType to_fields)
  = Ok (VStruct to_fields fields).
Proof.
  intros Hne Hlen Hf.
  assert (He : Equals (StructType v_fields) (StructType to_fields) = false).
  { destruct (Equals _ _) eqn:E; [| reflexivity].
    apply Equals_eq in E. congruence. }
  unfold CastContext_CastValue.
  rewrite (CastValue_reaches_switch lib ctx _ (VStruct v_fields fields)
             (StructType v_fields) (StructType to_fields)
             eq_refl eq_refl He eq_refl eq_refl
             (IsMapEntryCast_to_proto (StructType v_fields)
                (StructType to_fields) eq_refl) eq_refl).
  unfold CastSwitch; cbn [kind AsStruct checked mbind StatusOr_bind].
  rewrite bool_decide_eq_true_2 by exact Hlen. cbn [negb].
  rewrite CastFieldsLoop_unchanged; [reflexivity |].
  eapply Forall2_impl; [exact Hf |].
  intros f tf Hty. apply CastValue_same_type. exact Hty.
Qed.

End StructRelabel.

Lemma CastValue_struct_relabel_witness :
  let v_fields := [("a", SimpleType TYPE_INT32); ("b", SimpleType TYPE_STRING)] in
  let to_fields := [("x", SimpleType TYPE_INT32); ("y", SimpleType TYPE_STRING)] in
  let fields := [VInt32 1; VNull (SimpleType TYPE_STRING)] in
  v_fields <> to_fields
  /\ length v_fields = length to_fields
  /\ Forall2 (fun field to_field => Value_type field = Some (snd to_field))
       fields to_fields
  /\ CastContext_CastValue sample_library sample_context
       (VStruct v_fields fields) (StructType to_fields)
     = Ok (VStruct to_fields fields).
Proof.
  intros v_fields to_fields fields.
  assert (H1 : v_fields <> to_fields) by discriminate.
  assert (H2 : length v_fields = length to_fields) by reflexivity.
  assert (H3 : Forall2
                 (fun field to_field => Value_type field = Some (snd to_field))
                 fields to_fields) by (repeat constructor).
  split; [exact H1 |]. split; [exact H2 |]. split; [exact H3 |].
  exact (CastValue_struct_relabel sample_library sample_context
           v_fields to_fields fields H1 H2 H3).
Defined.

(** ** Round trips through strings, bytes and numbers *)

Section RoundTrips.

Variable lib : Library.
Variable ctx : CastContext.

(** With [FEATURE_JSON_NO_VALIDATION] a string becomes JSON without
    being parsed, so the cast cannot fail, and the JSON casts back to the
    very same string. *)
Theorem CastValue_string_json_round_trip (s : string) :
  LanguageFeatureEnabled (language_options ctx) FEATURE_JSON_NO_VALIDATION
  = true ->
  CastContext_CastValue lib ctx (VString s) (SimpleType TYPE_JSON)
  = Ok (VJson false s)
  /\ CastContext_CastValue lib ctx (VJson false s) (SimpleType TYPE_STRING)
     = Ok (VString s).
Proof.
  intros Hf. unfold CastContext_CastValue. split.
  - erewrite CastValue_reaches_switch by reflexivity.
    unfold CastSwitch; cbn [kind string_value checked mbind StatusOr_bind].
    rewrite Hf. reflexivity.
  - erewrite CastValue_reaches_switch by reflexivity. reflexivity.
Qed.

(** Without that feature the string is parsed, and whatever status the
    parser fails with, the cast fails with an evaluation error that
    carries the parser's message. *)
Theorem CastValue_string_json_parse_error (s : string) (status : Status) :
  LanguageFeatureEnabled (language_options ctx) FEATURE_JSON_NO_VALIDATION
  = false ->
  ParseJSONString lib s
    (LanguageFeatureEnabled (language_options ctx) FEATURE_JSON_LEGACY_PARSE)
  = Failed status ->
  CastContext_CastValue lib ctx (VString s) (SimpleType TYPE_JSON)
  = MakeEvalError (error_message status).
Proof.
  intros Hf Hp. unfold CastContext_CastValue.
  erewrite CastValue_reaches_switch by reflexivity.
  unfold CastSwitch; cbn [kind string_value checked mbind StatusOr_bind].
  rewrite Hf, Hp. reflexivity.
Qed.

(** A string always casts to bytes, unchanged; bytes cast to a string
    exactly when they are well-formed UTF-8, unchanged as well, and fail
    with an evaluation error otherwise. *)
Theorem CastValue_string_bytes (s : string) :
  CastContext_CastValue lib ctx (VString s) (SimpleType TYPE_BYTES)
  = Ok (VBytes s)
  /\ CastContext_CastValue lib ctx (VBytes s) (SimpleType TYPE_STRING)
     = if IsWellFormedUTF8 lib s then Ok (VString s)
       else MakeEvalError "Invalid cast of bytes to UTF8 string".
Proof.
  unfold CastContext_CastValue. split.
  - erewrite CastValue_reaches_switch by reflexivity. reflexivity.
  - erewrite CastValue_reaches_switch by reflexivity.
    unfold CastSwitch; cbn [kind bytes_value checked mbind StatusOr_bind].
    destruct (IsWellFormedUTF8 lib s); reflexivity.
Qed.

(** Bytes and protos are cast into each other without any validation: a
    proto gives its serialized bytes, any bytes give a proto of the
    target type, and the two casts undo each other. *)
Theorem CastValue_proto_bytes_round_trip (d : Descriptor) (bytes : string) :
  CastContext_CastValue lib ctx (VProto d bytes) (SimpleType TYPE_BYTES)
  = Ok (VBytes bytes)
  /\ CastContext_CastValue lib ctx (VBytes bytes) (ProtoType d)
     = Ok (VProto d bytes).
Proof.
  unfold CastContext_CastValue. split;
    (erewrite CastValue_reaches_switch by reflexivity); reflexivity.
Qed.

(** A proto value cast to another proto type keeps its bytes when the
    two types are equivalent, and is a static error when they are not;
    the bytes are not looked at. *)
Theorem CastValue_proto_to_proto (d d' : Descriptor) (bytes : string) :
  d <> d' ->
  CastContext_CastValue lib ctx (VProto d bytes) (ProtoType d') =
  if Equivalent lib (ProtoType d) (ProtoType d') then Ok (VProto d' bytes)
  else MakeSqlError ("Invalid proto cast from "
                     +:+ DebugString lib (ProtoType d)
                     +:+ " to " +:+ DebugString lib (ProtoType d')).
Proof.
  intros Hd.
  assert (He : Equals (ProtoType d) (ProtoType d') = false)
    by (apply bool_decide_eq_false; exact Hd).
  unfold CastContext_CastValue.
  rewrite (CastValue_reaches_switch lib ctx _ (VProto d bytes) (ProtoType d)
             (ProtoType d') eq_refl eq_refl He eq_refl eq_refl eq_refl
             eq_refl).
  unfold CastSwitch; cbn [kind].
  destruct (Equivalent lib (ProtoType d) (ProtoType d')); reflexivity.
Qed.

(** An enum value always casts to INT32, as its number; and for a number
    that the enum declares, casting that INT32 back gives the enum
    value. *)
Theorem CastValue_enum_int32_round_trip (d : EnumDescriptor) (n : Z) :
  IsValidEnumValue d n = true ->
  CastContext_CastValue lib ctx (VEnum d n) (SimpleType TYPE_INT32)
  = Ok (VInt32 n)
  /\ CastContext_CastValue lib ctx (VInt32 n) (EnumType d) = Ok (VEnum d n).
Proof.
  intros Hn. split.
  - unfold CastContext_CastValue.
    erewrite CastValue_reaches_switch by reflexivity. reflexivity.
  - rewrite (CastValue_int_to_enum lib ctx (VInt32 n) n d)
      by (left; reflexivity).
    rewrite Hn. reflexivity.
Qed.

Lemma static_cast_int64_small (x : Z) :
  0 <= x < 2 ^ 63 -> static_cast_int64 x = x.
Proof.
  intros Hx. unfold static_cast_int64.
  rewrite Z.mod_small by lia. lia.
Qed.

(** A signed or 32-bit integer, and a UINT64 up to 2^63-1, casts to an
    enum exactly when its own number is a value of the enum; when it is
    not, the cast fails with an evaluation error that shows the number. *)
Theorem CastValue_integer_to_enum_checked
    (v : Value) (x : Z) (d : EnumDescriptor) :
  v = VInt32 x \/ v = VInt64 x \/ v = VUint32 x
  \/ (v = VUint64 x /\ 0 <= x < 2 ^ 63) ->
  CastContext_CastValue lib ctx v (EnumType d) =
  if IsValidEnumValue d x then Ok (VEnum d x)
  else MakeEvalError ("Out of range cast of integer " +:+ pretty x
                      +:+ " to enum type " +:+ DebugString lib (EnumType d)).
Proof.
  intros [H | [H | [H | [-> Hx]]]];
    try solve [apply CastValue_int_to_enum; auto].
  rewrite CastValue_uint64_to_enum_unfold.
  rewrite (static_cast_int64_small x Hx). reflexivity.
Qed.

End RoundTrips.

Definition no_validation_options : LanguageOptions :=
  mkLanguageOptions
    (fun f => match f with FEATURE_JSON_NO_VALIDATION => true | _ => false end)
    PRODUCT_INTERNAL.

Lemma CastValue_string_json_round_trip_witness :
  let ctx := CastContextWithValidation sample_library "UTC"
               no_validation_options None in
  LanguageFeatureEnabled (language_options ctx) FEATURE_JSON_NO_VALIDATION
  = true
  /\ CastContext_CastValue sample_library ctx (VString "{not json")
       (SimpleType TYPE_JSON)
     = Ok (VJson false "{not json").
Proof.
  intros ctx. split; [reflexivity |].
  exact (proj1 (CastValue_string_json_round_trip sample_library ctx
                  "{not json" eq_refl)).
Defined.

Lemma CastValue_string_json_parse_error_witness :
  let ctx := CastContextWithValidation sample_library "UTC" plain_options
               None in
  LanguageFeatureEnabled (language_options ctx) FEATURE_JSON_NO_VALIDATION
  = false
  /\ ParseJSONString sample_library "{not json"
       (LanguageFeatureEnabled (language_options ctx)
          FEATURE_JSON_LEGACY_PARSE)
     = Failed (mkStatus OtherError "not modelled")
  /\ CastContext_CastValue sample_library ctx (VString "{not json")
       (SimpleType TYPE_JSON)
     = MakeEvalError "not modelled".
Proof.
  intros ctx. split; [reflexivity |]. split; [reflexivity |].
  exact (CastValue_string_json_parse_error sample_library ctx "{not json"
           (mkStatus OtherError "not modelled") eq_refl eq_refl).
Defined.

Definition point_v1 : Descriptor := mkDescriptor "test.Point" false 0 0.
Definition point_v2 : Descriptor := mkDescriptor "test.Point" false 1 2.

Lemma CastValue_proto_to_proto_witness :
  point_v1 <> point_v2
  /\ CastContext_CastValue sample_library sample_context
       (VProto point_v1 "bytes") (ProtoType point_v2)
     = Ok (VProto point_v2 "bytes").
Proof.
  assert (H : point_v1 <> point_v2) by discriminate.
  split; [exact H |].
  rewrite (CastValue_proto_to_proto sample_library sample_context
             point_v1 point_v2 "bytes" H).
  reflexivity.
Defined.

Lemma CastValue_enum_int32_round_trip_witness :
  IsValidEnumValue Sign (-1) = true
  /\ CastContext_CastValue sample_library sample_context (VEnum Sign (-1))
       (SimpleType TYPE_INT32)
     = Ok (VInt32 (-1))
  /\ CastContext_CastValue sample_library sample_context (VInt32 (-1))
       (EnumType Sign)
     = Ok (VEnum Sign (-1)).
Proof.
  split; [reflexivity |].
  exact (CastValue_enum_int32_round_trip sample_library sample_context
           Sign (-1) eq_refl).
Defined.

Lemma CastValue_integer_to_enum_checked_witness :
  (VUint64 300 = VInt32 300 \/ VUint64 300 = VInt64 300
   \/ VUint64 300 = VUint32 300
   \/ (VUint64 300 = VUint64 300 /\ 0 <= 300 < 2 ^ 63))
  /\ CastContext_CastValue sample_library sample_context (VUint64 300)
       (EnumType Color)
     = MakeEvalError
         "Out of range cast of integer 300 to enum type ENUM<test.Color>".
Proof.
  assert (H : VUint64 300 = VInt32 300 \/ VUint64 300 = VInt64 300
              \/ VUint64 300 = VUint32 300
              \/ (VUint64 300 = VUint64 300 /\ 0 <= 300 < 2 ^ 63))
    by (right; right; right; split; [reflexivity | lia]).
  split; [exact H |].
  rewrite (CastValue_integer_to_enum_checked sample_library sample_context
             (VUint64 300) 300 Color H).
  reflexivity.
Defined.

(** ** Casts to map entries *)

Section MapEntry.

Variable lib : Library.
Variable ctx : CastContext.



End MapEntry.



